(** * pyleak: the combined detector, the pytest marker and the caller context

    A shallow embedding of [src/pyleak/combined.py],
    [src/pyleak/pytest_plugin.py] and [src/pyleak/utils.py], and of the
    stall detector as the specification describes it.

    Python dictionaries with string keys are [gmap string pyval], Python
    sets of file names are [gset string], exceptions are an inductive type
    and a raising computation is a value of [result]. *)

From Stdlib Require Import ZArith QArith.
From stdpp Require Import gmap strings list fin_maps.

Open Scope string_scope.

(** ** Python values and exceptions *)

(** The values a marker argument can hold ([Any] in the source). *)
Inductive pyval : Type :=
  | VNone
  | VBool (b : bool)
  | VInt (n : Z)
  | VFloat (q : Q)
  | VStr (s : string).

(** Python truthiness, as used by [if x:] and [x and y]. *)
Definition truthy (v : pyval) : bool :=
  match v with
  | VNone => false
  | VBool b => b
  | VInt n => negb (n =? 0)%Z
  | VFloat q => negb (Qnum q =? 0)%Z
  | VStr s => negb (String.eqb s "")
  end.

(** [arg == "tasks"]: only a [str] compares equal to a [str]. *)
Definition eq_str (v : pyval) (s : string) : bool :=
  match v with
  | VStr s' => String.eqb s' s
  | _ => false
  end.

(** The exceptions the modelled code raises or catches. [PyleakExceptionGroup]
    carries its message and the exceptions it wraps; [OtherError] stands for
    any exception class the code does not name. *)
#[warnings="-register-all"]
Inductive exn : Type :=
  | ThreadLeakError (msg : string)
  | EventLoopBlockError (msg : string)
  | TaskLeakError (msg : string)
  | PyleakExceptionGroup (msg : string) (errs : list exn)
  | AttributeError (msg : string)
  | TypeError (msg : string)
  | IndexError (msg : string)
  | OtherError (cls msg : string).

(** [str(e)] *)
Definition exn_str (e : exn) : string :=
  match e with
  | ThreadLeakError m | EventLoopBlockError m | TaskLeakError m
  | PyleakExceptionGroup m _ | AttributeError m | TypeError m
  | IndexError m | OtherError _ m => m
  end.

(** A computation that returns or raises. *)
Inductive result (A : Type) : Type :=
  | Ok (a : A)
  | Raise (e : exn).
Arguments Ok {A} a.
Arguments Raise {A} e.

Definition rbind {A B} (r : result A) (k : A -> result B) : result B :=
  match r with
  | Ok a => k a
  | Raise e => Raise e
  end.

(** ** [PyLeakConfig] (combined.py) *)

Module Config.

Record PyLeakConfig : Type := {
  detect_tasks : pyval;
  task_action : pyval;
  task_name_filter : pyval;
  enable_task_creation_tracking : pyval;
  detect_threads : pyval;
  thread_action : pyval;
  thread_name_filter : pyval;
  exclude_daemon_threads : pyval;
  detect_blocking : pyval;
  blocking_action : pyval;
  blocking_threshold : pyval;
  blocking_check_interval : pyval
}.

(** [d.get(key, dflt)] *)
Definition dict_get (d : gmap string pyval) (key : string) (dflt : pyval) : pyval :=
  default dflt (d !! key).

(** [PyLeakConfig.__init__(self, marker_args)] *)
Definition init (marker_args : gmap string pyval) : PyLeakConfig := {|
  detect_tasks := dict_get marker_args "tasks" (VBool true);
  task_action := dict_get marker_args "task_action" (VStr "raise");
  task_name_filter := dict_get marker_args "task_name_filter" VNone;
  enable_task_creation_tracking :=
    dict_get marker_args "enable_creation_tracking" (VBool false);
  detect_threads := dict_get marker_args "threads" (VBool true);
  thread_action := dict_get marker_args "thread_action" (VStr "raise");
  thread_name_filter := dict_get marker_args "thread_name_filter" VNone;
  exclude_daemon_threads := dict_get marker_args "exclude_daemon" (VBool true);
  detect_blocking := dict_get marker_args "blocking" (VBool true);
  blocking_action := dict_get marker_args "blocking_action" (VStr "raise");
  blocking_threshold := dict_get marker_args "blocking_threshold" (VFloat (1 # 10));
  blocking_check_interval :=
    dict_get marker_args "blocking_check_interval" (VFloat (1 # 100))
|}.

(** The names defined in the body of [class PyLeakConfig]: the class has
    one method, [__init__], and nothing else. *)
Definition class_attrs : list string := ["__init__"].

(** [PyLeakConfig.<name>(marker_args)] for a name that [object] does not
    define: attribute lookup on the class, then the call. The class body
    defines [__init__] alone, and called through the class with one argument
    it lacks [marker_args]; any other such name is not an attribute. *)
Definition call_class_attr (name : string) (marker_args : gmap string pyval)
  : result PyLeakConfig :=
  if bool_decide (name ∈ class_attrs)
  then Raise (TypeError "__init__() missing 1 required positional argument")
  else Raise (AttributeError
         ("type object 'PyLeakConfig' has no attribute '" ++ name ++ "'")).

(** The keys [__init__] reads from [marker_args]. *)
Definition marker_keys : list string :=
  ["tasks"; "task_action"; "task_name_filter"; "enable_creation_tracking";
   "threads"; "thread_action"; "thread_name_filter"; "exclude_daemon";
   "blocking"; "blocking_action"; "blocking_threshold"; "blocking_check_interval"].

End Config.

(** ** The pytest plugin (pytest_plugin.py) *)

Module Plugin.

(** A [pytest.Mark]: positional and keyword arguments. *)
Record Marker : Type := {
  args : list pyval;
  kwargs : gmap string pyval
}.

(** The [for arg in marker.args] loop body. *)
Definition flag_step (marker_args : gmap string pyval) (arg : pyval)
  : gmap string pyval :=
  if eq_str arg "tasks" then <["tasks" := VBool true]> marker_args
  else if eq_str arg "threads" then <["threads" := VBool true]> marker_args
  else if eq_str arg "blocking" then <["blocking" := VBool true]> marker_args
  else if eq_str arg "all" then
    (* marker_args.update({...}) *)
    <["tasks" := VBool true]>
      (<["threads" := VBool true]> (<["blocking" := VBool true]> marker_args))
  else marker_args.

(** The dictionary [should_monitor_test] builds from the marker, up to its
    last statement. *)
Definition resolve_marker_args (marker : Marker) : gmap string pyval :=
  let marker_args := foldl flag_step ∅ (args marker) in
  (* marker_args.update(marker.kwargs): the keyword arguments win *)
  let marker_args := kwargs marker ∪ marker_args in
  if bool_decide (marker_args = ∅)
  then <["tasks" := VBool true]>
         (<["threads" := VBool true]> (<["blocking" := VBool true]> ∅))
  else marker_args.

(** [should_monitor_test(item)]; the argument is
    [item.get_closest_marker("no_leaks")]. *)
Definition should_monitor_test (closest_marker : option Marker)
  : result (option Config.PyLeakConfig) :=
  match closest_marker with
  | None => Ok None
  | Some marker =>
      rbind (Config.call_class_attr "from_marker_args" (resolve_marker_args marker))
            (fun cfg => Ok (Some cfg))
  end.

(** Every value the flag loop stores is [True]. *)
Definition only_true (m : gmap string pyval) : Prop :=
  forall k v, m !! k = Some v -> v = VBool true.

(** [@pytest.mark.no_leaks("tasks")] *)
Definition tasks_only : Marker := {| args := [VStr "tasks"]; kwargs := ∅ |}.

(** [@pytest.mark.no_leaks] *)
Definition bare : Marker := {| args := []; kwargs := ∅ |}.

(** [@pytest.mark.no_leaks(tasks=True, threads=False, blocking=False)] *)
Definition tasks_kw : Marker :=
  {| args := [];
     kwargs := <["tasks" := VBool true]>
                 (<["threads" := VBool false]> (<["blocking" := VBool false]> ∅)) |}.

(** The keywords the plugin's wrappers pass to [CombinedLeakDetector]. *)
Definition wrapper_keywords : list string :=
  ["config"; "is_async"; "caller_context"].

(** [@pytest.mark.no_leaks("thread", 3)]: a misspelt flag and a number *)
Definition misspelt : Marker := {| args := [VStr "thread"; VInt 3]; kwargs := ∅ |}.

(** [@pytest.mark.no_leaks(tasks=False, threads=False, blocking=False)] *)
Definition all_off : Marker :=
  {| args := [];
     kwargs := <["tasks" := VBool false]>
                 (<["threads" := VBool false]> (<["blocking" := VBool false]> ∅)) |}.

(** [@pytest.mark.no_leaks("all", threads=False, blocking_threshold=0.05)] *)
Definition all_but_threads : Marker :=
  {| args := [VStr "all"];
     kwargs := <["threads" := VBool false]>
                 (<["blocking_threshold" := VFloat (5 # 100)]> ∅) |}.

End Plugin.

(** ** [CombinedLeakDetector] (combined.py) *)

Module Combined.

Import Config.

Inductive detector_kind : Type :=
  | TaskDetector
  | BlockingDetector
  | ThreadDetector.

#[export] Instance detector_kind_eq_dec : EqDecision detector_kind.
Proof. solve_decision. Defined.

(** The three detector objects, as built by [no_task_leaks],
    [no_event_loop_blocking] and [no_thread_leaks]: each keeps the keyword
    arguments it was given. *)
Record task_detector_obj : Type := {
  td_action : pyval;
  td_name_filter : pyval;
  td_enable_creation_tracking : pyval
}.

Record blocking_detector_obj : Type := {
  bd_action : pyval;
  bd_threshold : pyval;
  bd_check_interval : pyval
}.

Record thread_detector_obj : Type := {
  hd_action : pyval;
  hd_name_filter : pyval;
  hd_exclude_daemon : pyval
}.

Record CombinedLeakDetector : Type := {
  config : PyLeakConfig;
  is_async : bool;
  task_detector : option task_detector_obj;
  thread_detector : option thread_detector_obj;
  blocking_detector : option blocking_detector_obj
}.

(** [CombinedLeakDetector.__init__(self, config, is_async)] *)
Definition new (config : PyLeakConfig) (is_async : bool) : CombinedLeakDetector := {|
  config := config;
  is_async := is_async;
  task_detector := None;
  thread_detector := None;
  blocking_detector := None
|}.

(** The parameters [__init__] declares after [self]. *)
Definition init_params : list string := ["config"; "is_async"].

(** A call of the class with the keyword arguments named in [kw], in call
    order: a keyword that [__init__] does not declare raises [TypeError], and
    so does a declared parameter that is not given. *)
Definition new_kw (kw : list string) (config : PyLeakConfig) (is_async : bool)
  : result CombinedLeakDetector :=
  match filter (fun k => k ∉ init_params) kw with
  | k :: _ =>
      Raise (TypeError ("__init__() got an unexpected keyword argument '" ++ k ++ "'"))
  | [] =>
      match filter (fun k => k ∉ kw) init_params with
      | k :: _ =>
          Raise (TypeError ("__init__() missing 1 required positional argument: '"
                            ++ k ++ "'"))
      | [] => Ok (new config is_async)
      end
  end.

(** What the modelled code does to the detectors: the calls of their
    [__enter__] ([__aenter__]) and [__exit__] ([__aexit__]) methods. *)
Inductive event : Type :=
  | Enter (k : detector_kind)
  | Exit (k : detector_kind).

Definition event_kind (ev : event) : detector_kind :=
  match ev with Enter k | Exit k => k end.

(** The detectors themselves live in modules that are not modelled here
    (pyleak.tasks, pyleak.eventloop, pyleak.threads); what their entry and
    exit methods raise is a parameter. [exit_outcome k exc] is what the exit
    method of detector [k] raises when called with the exception [exc] of the
    body ([None]: it returns). *)
Record Env : Type := {
  enter_outcome : detector_kind -> option exn;
  exit_outcome : detector_kind -> option exn -> option exn
}.

(** A computation over the trace of detector calls that returns or raises. *)
Definition M (A : Type) : Type := list event -> result A * list event.

Definition ret {A} (a : A) : M A := fun tr => (Ok a, tr).
Definition raise {A} (e : exn) : M A := fun tr => (Raise e, tr).
Definition bind {A B} (c : M A) (k : A -> M B) : M B :=
  fun tr =>
    match c tr with
    | (Ok a, tr') => k a tr'
    | (Raise e, tr') => (Raise e, tr')
    end.

#[export] Instance M_ret : MRet M := @ret.
#[export] Instance M_bind : MBind M := fun A B k c => bind c k.

(** [try: c  except <class> as e: h e] *)
Definition try_except {A} (c : M A) (catches : exn -> bool) (h : exn -> M A) : M A :=
  fun tr =>
    match c tr with
    | (Ok a, tr') => (Ok a, tr')
    | (Raise e, tr') => if catches e then h e tr' else (Raise e, tr')
    end.

Definition is_ThreadLeakError (e : exn) : bool :=
  match e with ThreadLeakError _ => true | _ => false end.
Definition is_EventLoopBlockError (e : exn) : bool :=
  match e with EventLoopBlockError _ => true | _ => false end.
Definition is_TaskLeakError (e : exn) : bool :=
  match e with TaskLeakError _ => true | _ => false end.

(** The [except] clause that guards the exit of each detector. *)
Definition catches (k : detector_kind) : exn -> bool :=
  match k with
  | ThreadDetector => is_ThreadLeakError
  | BlockingDetector => is_EventLoopBlockError
  | TaskDetector => is_TaskLeakError
  end.

Definition nl : string := String (Ascii.ascii_of_nat 10) EmptyString.

(** ["PyLeak detected issues:\n" + "\n\n".join([str(e) for e in leak_errors])] *)
Definition group_message (leak_errors : list exn) : string :=
  "PyLeak detected issues:" ++ nl ++ String.concat (nl ++ nl) (map exn_str leak_errors).

Section WithEnv.

Variable env : Env.

Definition detector_enter (k : detector_kind) : M unit :=
  fun tr =>
    (match enter_outcome env k with None => Ok tt | Some e => Raise e end,
     (tr ++ [Enter k])%list).

Definition detector_exit (k : detector_kind) (exc : option exn) : M unit :=
  fun tr =>
    (match exit_outcome env k exc with None => Ok tt | Some e => Raise e end,
     (tr ++ [Exit k])%list).

(** [CombinedLeakDetector.__aenter__] *)
Definition aenter (self : CombinedLeakDetector) : M CombinedLeakDetector :=
  self ← (if is_async self && truthy (detect_tasks (config self)) then
             let self := {| config := config self; is_async := is_async self;
                            task_detector := Some {|
                              td_action := task_action (config self);
                              td_name_filter := task_name_filter (config self);
                              td_enable_creation_tracking :=
                                enable_task_creation_tracking (config self) |};
                            thread_detector := thread_detector self;
                            blocking_detector := blocking_detector self |} in
             detector_enter TaskDetector ;; ret self
           else ret self);
  self ← (if is_async self && truthy (detect_blocking (config self)) then
             let self := {| config := config self; is_async := is_async self;
                            task_detector := task_detector self;
                            thread_detector := thread_detector self;
                            blocking_detector := Some {|
                              bd_action := blocking_action (config self);
                              bd_threshold := blocking_threshold (config self);
                              bd_check_interval :=
                                blocking_check_interval (config self) |} |} in
             detector_enter BlockingDetector ;; ret self
           else ret self);
  self ← (if truthy (detect_threads (config self)) then
             let self := {| config := config self; is_async := is_async self;
                            task_detector := task_detector self;
                            thread_detector := Some {|
                              hd_action := thread_action (config self);
                              hd_name_filter := thread_name_filter (config self);
                              hd_exclude_daemon :=
                                exclude_daemon_threads (config self) |};
                            blocking_detector := blocking_detector self |} in
             detector_enter ThreadDetector ;; ret self
           else ret self);
  ret self.

(** [CombinedLeakDetector.__aexit__]; [exc] is [exc_val]. It returns [None]
    when it does not raise. *)
Definition aexit (self : CombinedLeakDetector) (exc : option exn) : M unit :=
  let leak_errors : list exn := [] in
  leak_errors ← (if thread_detector self is Some _ then
                    try_except (detector_exit ThreadDetector exc ;; ret leak_errors)
                      is_ThreadLeakError (fun e => ret (leak_errors ++ [e])%list)
                  else ret leak_errors);
  leak_errors ← (if blocking_detector self is Some _ then
                    try_except (detector_exit BlockingDetector exc ;; ret leak_errors)
                      is_EventLoopBlockError (fun e => ret (leak_errors ++ [e])%list)
                  else ret leak_errors);
  leak_errors ← (if task_detector self is Some _ then
                    try_except (detector_exit TaskDetector exc ;; ret leak_errors)
                      is_TaskLeakError (fun e => ret (leak_errors ++ [e])%list)
                  else ret leak_errors);
  match leak_errors with
  | [] => ret tt
  | _ :: _ => raise (PyleakExceptionGroup (group_message leak_errors) leak_errors)
  end.

(** [CombinedLeakDetector.__enter__] *)
Definition enter (self : CombinedLeakDetector) : M CombinedLeakDetector :=
  self ← (if truthy (detect_threads (config self)) then
             let self := {| config := config self; is_async := is_async self;
                            task_detector := task_detector self;
                            thread_detector := Some {|
                              hd_action := thread_action (config self);
                              hd_name_filter := thread_name_filter (config self);
                              hd_exclude_daemon :=
                                exclude_daemon_threads (config self) |};
                            blocking_detector := blocking_detector self |} in
             detector_enter ThreadDetector ;; ret self
           else ret self);
  ret self.

(** [CombinedLeakDetector.__exit__] *)
Definition exit (self : CombinedLeakDetector) (exc : option exn) : M unit :=
  if thread_detector self is Some _ then detector_exit ThreadDetector exc else ret tt.

(** How a [with] statement ends: the body's block returns, or an exception
    propagates out of the statement. [primary] is the exception that leaves
    the statement; [replaced] is the exception of the body that was in flight
    when the exit method raised [primary] in its place ([None]: [primary]
    replaced nothing). Nothing is said about the [__context__] attribute
    that Python gives [primary]: it is set where [primary] is raised. *)
Inductive scope_outcome : Type :=
  | Returned
  | Propagated (primary : exn) (replaced : option exn).

(** The second half of [with detector: body], once the body has finished
    with [body] ([None]: it returned; [Some e]: it raised [e]). The exit
    method returns [None], which is false, so an exception of the body is
    never suppressed; an exception that leaves the exit method propagates
    in place of the body's. *)
Definition with_exit (exit_method : option exn -> M unit) (body : option exn)
  : list event -> scope_outcome * list event :=
  fun tr =>
    match exit_method body tr with
    | (Ok _, tr') =>
        (match body with None => Returned | Some e => Propagated e None end, tr')
    | (Raise e', tr') => (Propagated e' body, tr')
    end.

(** [async with detector: body] *)
Definition async_with (self : CombinedLeakDetector) (body : option exn)
  : list event -> scope_outcome * list event :=
  fun tr =>
    match aenter self tr with
    | (Ok self', tr') => with_exit (aexit self') body tr'
    | (Raise e, tr') => (Propagated e None, tr')
    end.

(** [with detector: body] *)
Definition sync_with (self : CombinedLeakDetector) (body : option exn)
  : list event -> scope_outcome * list event :=
  fun tr =>
    match enter self tr with
    | (Ok self', tr') => with_exit (exit self') body tr'
    | (Raise e, tr') => (Propagated e None, tr')
    end.

(** The errors the detectors of [self] raise at exit, in the order the exit
    methods are called. *)
Definition produced (self : CombinedLeakDetector) (exc : option exn) : list exn :=
  ((if thread_detector self is Some _
    then option_list (exit_outcome env ThreadDetector exc) else [])
   ++ (if blocking_detector self is Some _
       then option_list (exit_outcome env BlockingDetector exc) else [])
   ++ (if task_detector self is Some _
       then option_list (exit_outcome env TaskDetector exc) else []))%list.

(** The exit method of detector [k] raises nothing but the error class that
    the [except] clause around its call names. *)
Definition raises_own_error (k : detector_kind) : Prop :=
  forall exc e, exit_outcome env k exc = Some e -> catches k e = true.

End WithEnv.

(** The kinds of the detectors entered, and of those exited, in a trace. *)
Definition entered (tr : list event) : list detector_kind :=
  omap (fun ev => match ev with Enter k => Some k | Exit _ => None end) tr.
Definition exited (tr : list event) : list detector_kind :=
  omap (fun ev => match ev with Exit k => Some k | Enter _ => None end) tr.

(** Whether [self] holds a detector of kind [k]. *)
Definition holds (self : CombinedLeakDetector) (k : detector_kind) : bool :=
  match k with
  | TaskDetector => if task_detector self is Some _ then true else false
  | BlockingDetector => if blocking_detector self is Some _ then true else false
  | ThreadDetector => if thread_detector self is Some _ then true else false
  end.

(** The order in which [__aexit__] goes through the detectors. *)
Definition exit_order : list detector_kind :=
  [ThreadDetector; BlockingDetector; TaskDetector].

(** The detectors [__aenter__] starts for a configuration, in the order it
    starts them. *)
Definition started_kinds (cfg : PyLeakConfig) (async : bool) : list detector_kind :=
  ((if async && truthy (detect_tasks cfg) then [TaskDetector] else [])
   ++ (if async && truthy (detect_blocking cfg) then [BlockingDetector] else [])
   ++ (if truthy (detect_threads cfg) then [ThreadDetector] else []))%list.

(** Detectors that find nothing. *)
Definition quiet_env : Env :=
  {| enter_outcome := fun _ => None; exit_outcome := fun _ _ => None |}.

(** Only the task detector finds something, under the [raise] action. *)
Definition task_leak_env : Env :=
  {| enter_outcome := fun _ => None;
     exit_outcome := fun k _ =>
       match k with
       | TaskDetector => Some (TaskLeakError "Detected 1 leaked asyncio tasks")
       | _ => None
       end |}.

(** The thread and the task detector both find something. *)
Definition two_leaks_env : Env :=
  {| enter_outcome := fun _ => None;
     exit_outcome := fun k _ =>
       match k with
       | TaskDetector => Some (TaskLeakError "Detected 1 leaked asyncio tasks")
       | ThreadDetector => Some (ThreadLeakError "Detected 1 leaked threads")
       | BlockingDetector => None
       end |}.

(** The thread detector fails at exit with an error that is not a finding. *)
Definition faulty_thread_env : Env :=
  {| enter_outcome := fun _ => None;
     exit_outcome := fun k _ =>
       match k with
       | ThreadDetector => Some (OtherError "RuntimeError" "cannot enumerate threads")
       | _ => None
       end |}.

(** An exception of the user's code. *)
Definition user_error : exn := OtherError "ValueError" "boom".

(** The detector of an async test with the default configuration, once
    entered: it holds all three detectors. *)
Definition all_started : CombinedLeakDetector := {|
  config := init ∅;
  is_async := true;
  task_detector := Some {| td_action := VStr "raise"; td_name_filter := VNone;
                           td_enable_creation_tracking := VBool false |};
  thread_detector := Some {| hd_action := VStr "raise"; hd_name_filter := VNone;
                             hd_exclude_daemon := VBool true |};
  blocking_detector := Some {| bd_action := VStr "raise";
                               bd_threshold := VFloat (1 # 10);
                               bd_check_interval := VFloat (1 # 100) |}
|}.

(** The exception that leaves a scope, if any. *)
Definition primary (o : scope_outcome) : option exn :=
  match o with
  | Returned => None
  | Propagated e _ => Some e
  end.

(** The detector of an async test marked
    [no_leaks("all", threads=False, blocking_threshold=0.05)], once entered. *)
Definition all_but_threads_started : CombinedLeakDetector := {|
  config := init (Plugin.resolve_marker_args Plugin.all_but_threads);
  is_async := true;
  task_detector := Some {| td_action := VStr "raise"; td_name_filter := VNone;
                           td_enable_creation_tracking := VBool false |};
  thread_detector := None;
  blocking_detector := Some {| bd_action := VStr "raise";
                               bd_threshold := VFloat (5 # 100);
                               bd_check_interval := VFloat (1 # 100) |}
|}.

(** How a scope ends when nothing monitors it: as its body does. *)
Definition body_outcome (body : option exn) : scope_outcome :=
  match body with
  | None => Returned
  | Some e => Propagated e None
  end.

(** The thread detector finds a leak, then the blocking detector fails at
    exit with an error that is not a finding. *)
Definition blocking_fault_env : Env :=
  {| enter_outcome := fun _ => None;
     exit_outcome := fun k _ =>
       match k with
       | ThreadDetector => Some (ThreadLeakError "Detected 1 leaked threads")
       | BlockingDetector => Some (OtherError "RuntimeError" "no running event loop")
       | TaskDetector => None
       end |}.

(** The blocking detector cannot be entered. *)
Definition blocking_enter_fails_env : Env :=
  {| enter_outcome := fun k =>
       match k with
       | BlockingDetector => Some (OtherError "RuntimeError" "no running event loop")
       | _ => None
       end;
     exit_outcome := fun _ _ => None |}.

(** The detector of a sync test with the default configuration, once
    entered: it holds the thread detector alone. *)
Definition thread_only : CombinedLeakDetector := {|
  config := init ∅;
  is_async := false;
  task_detector := None;
  thread_detector := Some {| hd_action := VStr "raise"; hd_name_filter := VNone;
                             hd_exclude_daemon := VBool true |};
  blocking_detector := None
|}.

End Combined.

(** ** The caller context (utils.py) *)

Module Utils.

(** A [traceback.FrameSummary], as far as the code reads it. *)
Record FrameSummary : Type := {
  filename : string;
  name : string;
  lineno : option Z
}.

Record CallerContext : Type := {
  cc_filename : string;
  cc_name : string;
  cc_lineno : option Z;
  files : option (gset string)
}.

(** [s.startswith(pre)] *)
Fixpoint startswith (s pre : string) {struct pre} : bool :=
  match pre, s with
  | EmptyString, _ => true
  | String _ _, EmptyString => false
  | String c pre', String d s' => bool_decide (c = d) && startswith s' pre'
  end.

(** [needle in hay] on strings *)
Fixpoint contains (needle hay : string) : bool :=
  startswith hay needle
  || match hay with
     | EmptyString => false
     | String _ hay' => contains needle hay'
     end.

(** [l[i]] for an [int] index: a negative index counts from the end. *)
Definition py_index {A} (l : list A) (i : Z) : result A :=
  let n := Z.of_nat (length l) in
  let j := if (i <? 0)%Z then (i + n)%Z else i in
  if (0 <=? j)%Z && (j <? n)%Z
  then match l !! Z.to_nat j with
       | Some x => Ok x
       | None => Raise (IndexError "list index out of range")
       end
  else Raise (IndexError "list index out of range").

(** [l[:stop]]: a negative [stop] counts from the end, and both are clamped
    to the list. *)
Definition py_slice_to {A} (l : list A) (stop : Z) : list A :=
  let n := Z.of_nat (length l) in
  let j := if (stop <? 0)%Z then Z.max 0 (stop + n) else Z.min stop n in
  take (Z.to_nat j) l.

Section WithSrcDir.

(** [os.path.dirname(os.path.abspath(__file__))], fixed when the module is
    imported. *)
Variable _pyleak_src_dir : string.

Definition _is_user_file (filename : string) : bool :=
  if contains "site-packages" filename || contains "lib/python" filename
  then false
  else if startswith filename _pyleak_src_dir then false
  else true.

(** [find_my_caller(ignore_frames)]; [stack] is what
    [traceback.extract_stack()] returns, oldest frame first. *)
Definition find_my_caller (stack : list FrameSummary) (ignore_frames : Z)
  : result CallerContext :=
  rbind (py_index stack (- ignore_frames - 1)%Z) (fun frame =>
    let files : gset string :=
      list_to_set
        (filename <$> filter (fun f => _is_user_file (filename f) = true)
                             (py_slice_to stack (- ignore_frames)%Z)) in
    Ok {| cc_filename := filename frame;
          cc_name := name frame;
          cc_lineno := lineno frame;
          files := Some files |}).

End WithSrcDir.

(** What the two string tests decide. *)
Definition is_prefix (pre s : string) : Prop := exists post, s = pre ++ post.
Definition is_substring (needle s : string) : Prop :=
  exists pre post, s = pre ++ needle ++ post.

(** A file of user code: not under site-packages, not in the standard
    library, not in pyleak's own directory. *)
Definition user_file (src_dir f : string) : Prop :=
  ~ is_substring "site-packages" f
  /\ ~ is_substring "lib/python" f
  /\ ~ is_prefix src_dir f.

(** The file names of every frame of the stack. *)
Definition stack_files (stack : list FrameSummary) : gset string :=
  list_to_set (filename <$> stack).

(** A stack as [find_my_caller] sees it when the blocking detector is
    entered from a test. *)
Definition sample_stack : list FrameSummary := [
  {| filename := "/usr/lib/python3.11/asyncio/runners.py"; name := "run";
     lineno := Some 190%Z |};
  {| filename := "/home/u/proj/tests/test_app.py"; name := "test_app";
     lineno := Some 12%Z |};
  {| filename := "/opt/pyleak/eventloop.py"; name := "__enter__";
     lineno := Some 80%Z |};
  {| filename := "/opt/pyleak/utils.py"; name := "find_my_caller";
     lineno := Some 44%Z |}
].

End Utils.

(** ** The stall detector and its action dispatch

    [pyleak/eventloop.py] is not among the sources at hand; this part follows
    sections 3 and 4.1 of the specification. Times and durations are whole
    numbers of a fixed unit (say microseconds). *)

Module Stall.

(** A frame descriptor of a captured stack. *)
Record Frame : Type := {
  function_name : string;
  file : string;
  line : Z;
  source_line : option string
}.

Record BlockingEvent : Type := {
  block_id : Z;
  timestamp : Z;
  duration : Z;
  stack : list Frame;
  origin : string
}.

(** The heartbeat's state: when it last woke, and the events recorded so
    far, in detection order. *)
Record heartbeat_state : Type := {
  previous_wake_time : Z;
  events : list BlockingEvent
}.

Section WithConfig.

Variables (threshold check_interval : Z).
Variable origin_site : string.

(** Modelled from the spec: the heartbeat's check on resumption, which the
    absent [pyleak/eventloop.py] implements. "Upon resumption, compute
    actual_delay = now - previous_wake_time. If actual_delay - check_interval
    > threshold, a stall is confirmed: its duration is actual_delay -
    check_interval, its timestamp is the resumption time"; "block_id
    increments per confirmed stall starting at 1"; shorter stalls leave no
    event. [captured] is the stack the sampler obtained. *)
Definition on_resume (st : heartbeat_state) (now : Z) (captured : list Frame)
  : heartbeat_state :=
  let actual_delay := (now - previous_wake_time st)%Z in
  if (threshold <? actual_delay - check_interval)%Z
  then {| previous_wake_time := now;
          events := events st ++ [{|
            block_id := Z.of_nat (length (events st)) + 1;
            timestamp := now;
            duration := actual_delay - check_interval;
            stack := captured;
            origin := origin_site |}] |}
  else {| previous_wake_time := now; events := events st |}.

(** Modelled from the spec: the cooperative scheduler with one synchronous
    block occupying it from [start] for [d] time units. Section 5: "one
    cooperative, single-threaded scheduler"; glossary: a stall is "an
    interval during which the cooperative scheduler is unresponsive to new
    work because some code is running synchronously". So a wake-up that
    falls due while the scheduler is occupied runs when the block ends; any
    other wake-up runs when it is due. *)
Definition resume_time (start d due : Z) : Z :=
  if (start <=? due)%Z && (due <? start + d)%Z then (start + d)%Z else due.

(** Modelled from the spec: one heartbeat period. "Schedule a recurring
    wake-up on the scheduler at check_interval." *)
Definition heartbeat (start d : Z) (captured : list Frame) (st : heartbeat_state)
  : heartbeat_state :=
  let due := (previous_wake_time st + check_interval)%Z in
  on_resume st (resume_time start d due) captured.

(** [n] heartbeat periods over a scope with one block. *)
Fixpoint monitor (n : nat) (start d : Z) (captured : list Frame)
  (st : heartbeat_state) : heartbeat_state :=
  match n with
  | O => st
  | S n' => monitor n' start d captured (heartbeat start d captured st)
  end.

End WithConfig.

(** The heartbeat as the scope is entered at time [t0]. *)
Definition armed (t0 : Z) : heartbeat_state :=
  {| previous_wake_time := t0; events := [] |}.

(** *** Action dispatch at scope exit *)

Inductive action : Type := Log | Warn | RaiseError.

(** The notices of the [warn] action. *)
Inductive notice : Type :=
  | EventNotice (duration : Z) (stack : list Frame)
  | SummaryNotice (count : nat)
  | OriginNotice (origin : string) (first_line : option string).

(** The notice of kind (1) for an event. *)
Definition event_notice (ev : BlockingEvent) : notice :=
  EventNotice (duration ev) (stack ev).

(** The typed error of the [raise] action carries the events. *)
Record StallDetected : Type := { blocking_events : list BlockingEvent }.

Record dispatched : Type := {
  log_records : list BlockingEvent;
  warnings : list notice;
  raised : option StallDetected
}.

Section WithOffending.

(** Which frames of a captured stack count as offending is decided by
    [pyleak/eventloop.py], which is not at hand: it is a parameter. *)
Variable offending : Frame -> bool.

(** Modelled from the spec: "the first offending source line found in the
    captured stack", the stacks taken in detection order; a frame without a
    source line names none. *)
Definition first_offending_line (evs : list BlockingEvent) : option string :=
  head (omap source_line
          (filter (fun fr => offending fr = true) (concat (stack <$> evs)))).

(** Modelled from the spec: the action dispatch at scope exit, which the
    absent [pyleak/eventloop.py] implements. With no event nothing happens;
    "log emits a structured record per event; warn emits, per scope with at
    least one event, three escalating notices: one per event describing
    duration and stack, one summary stating total event count, one final
    notice naming the origin call site and the first offending source line
    found in the captured stack; raise instead raises a typed error carrying
    the full ordered sequence of events and suppresses the warnings". *)
Definition dispatch (a : action) (origin_site : string) (evs : list BlockingEvent)
  : dispatched :=
  match evs with
  | [] => {| log_records := []; warnings := []; raised := None |}
  | _ :: _ =>
      match a with
      | Log => {| log_records := evs; warnings := []; raised := None |}
      | Warn =>
          {| log_records := [];
             warnings :=
               (event_notice <$> evs)
               ++ [SummaryNotice (length evs)]
               ++ [OriginNotice origin_site (first_offending_line evs)];
             raised := None |}
      | RaiseError =>
          {| log_records := []; warnings := [];
             raised := Some {| blocking_events := evs |} |}
      end
  end.


End WithOffending.

(** What a dispatch that does nothing leaves. *)
Definition nothing_dispatched : dispatched :=
  {| log_records := []; warnings := []; raised := None |}.

(** Frames of user code, by the test of [utils.py], with pyleak installed
    under /opt/pyleak. *)
Definition user_frame (fr : Frame) : bool :=
  Utils._is_user_file "/opt/pyleak" (file fr).

(** The stack captured while [time.sleep(1)] blocks the loop in the test
    [bad_sleep_with_warning]. *)
Definition sleep_stack : list Frame := [
  {| function_name := "run"; file := "/usr/lib/python3.11/asyncio/runners.py";
     line := 190; source_line := Some "return runner.run(main)" |};
  {| function_name := "bad_sleep_with_warning";
     file := "/home/u/proj/tests/test_trio_event_loop_blocking.py";
     line := 18; source_line := Some "time.sleep(1)" |}
].

(** The one event of that test, in microseconds. *)
Definition sleep_event : BlockingEvent := {|
  block_id := 1;
  timestamp := 1000000;
  duration := 990000;
  stack := sleep_stack;
  origin := "test_trio_event_loop_blocking.py:bad_sleep_with_warning:?"
|}.

End Stall.

(** * Properties *)

Open Scope list_scope.

(** ** The marker and its configuration *)

Section PluginFacts.

Import Config Plugin.

Lemma only_true_insert m k :
  only_true m -> only_true (<[k := VBool true]> m).
Proof.
  intros Hm k' v. rewrite lookup_insert. case_decide.
  - by intros [= <-].
  - apply Hm.
Qed.

Lemma flag_step_only_true m arg :
  only_true m -> only_true (flag_step m arg).
Proof.
  intros Hm. unfold flag_step.
  repeat case_match; auto using only_true_insert.
Qed.

Lemma flag_loop_only_true l m :
  only_true m -> only_true (foldl flag_step m l).
Proof.
  revert m. induction l as [|arg l IH]; intros m Hm; simpl; [done|].
  apply IH, flag_step_only_true, Hm.
Qed.

(** With positional flags alone, whatever they are, the dictionary holds
    nothing but [True] under the detector keys. *)
Lemma resolve_flags_only_true l :
  only_true (resolve_marker_args {| args := l; kwargs := ∅ |}).
Proof.
  unfold resolve_marker_args; simpl.
  case_bool_decide.
  - repeat apply only_true_insert. intros k v. by rewrite lookup_empty.
  - rewrite (left_id_L ∅ (∪)). apply flag_loop_only_true.
    intros k v. by rewrite lookup_empty.
Qed.

Lemma flag_step_keys m arg :
  (forall k, is_Some (m !! k) -> k ∈ ["tasks"; "threads"; "blocking"]) ->
  forall k, is_Some (flag_step m arg !! k) -> k ∈ ["tasks"; "threads"; "blocking"].
Proof.
  intros Hm k. unfold flag_step.
  repeat case_match; rewrite ?lookup_insert; repeat case_decide; subst;
    intros Hk; try (by apply Hm);
    apply (bool_decide_unpack _); by vm_compute.
Qed.

Lemma flag_loop_keys l m :
  (forall k, is_Some (m !! k) -> k ∈ ["tasks"; "threads"; "blocking"]) ->
  forall k, is_Some (foldl flag_step m l !! k) -> k ∈ ["tasks"; "threads"; "blocking"].
Proof.
  revert m. induction l as [|arg l IH]; intros m Hm; simpl; [done|].
  apply IH, flag_step_keys, Hm.
Qed.

(** A marker without arguments gives the default configuration. *)
Lemma bare_marker_defaults :
  init (resolve_marker_args bare) = init ∅.
Proof. vm_compute. reflexivity. Qed.

End PluginFacts.

(** C7. Claimed: for every item that carries the marker, [should_monitor_test]
    returns a resolved configuration without raising. On this code it raises
    for every such item, whatever the marker's arguments: the class
    [PyLeakConfig] defines no [from_marker_args], so the last statement
    raises [AttributeError]. *)
Theorem should_monitor_test_raises (marker : Plugin.Marker) :
  Plugin.should_monitor_test (Some marker)
  = Raise (AttributeError
             "type object 'PyLeakConfig' has no attribute 'from_marker_args'").
Proof. reflexivity. Qed.

(** An item without the marker is left alone. *)
Lemma should_monitor_test_unmarked :
  Plugin.should_monitor_test None = Ok None.
Proof. reflexivity. Qed.

(** The wrappers of [pytest_runtest_call] build the detector with a
    [caller_context] keyword that [CombinedLeakDetector.__init__] does not
    declare. *)
Lemma wrapper_constructor_raises cfg async :
  Combined.new_kw Plugin.wrapper_keywords cfg async
  = Raise (TypeError "__init__() got an unexpected keyword argument 'caller_context'").
Proof. vm_compute. reflexivity. Qed.

(** C6. Claimed: a marker with the single positional flag "tasks" enables
    exactly the task detector. On this code [should_monitor_test] raises for
    that marker, and the configuration the constructor builds from the
    dictionary resolved for it has the thread and the blocking detector
    enabled as well, exactly as for a marker without arguments. *)
Theorem tasks_flag_enables_everything :
  Plugin.should_monitor_test (Some Plugin.tasks_only)
  = Raise (AttributeError
             "type object 'PyLeakConfig' has no attribute 'from_marker_args'")
  /\ Plugin.resolve_marker_args Plugin.tasks_only = {["tasks" := VBool true]}
  /\ Config.detect_tasks (Config.init (Plugin.resolve_marker_args Plugin.tasks_only))
     = VBool true
  /\ Config.detect_threads (Config.init (Plugin.resolve_marker_args Plugin.tasks_only))
     = VBool true
  /\ Config.detect_blocking (Config.init (Plugin.resolve_marker_args Plugin.tasks_only))
     = VBool true
  /\ Config.init (Plugin.resolve_marker_args Plugin.tasks_only)
     = Config.init (Plugin.resolve_marker_args Plugin.bare).
Proof.
  split; [reflexivity|].
  split; [by vm_compute|].
  repeat split; by vm_compute.
Qed.

(** Keyword arguments do select a subset. *)
Lemma keywords_select_subset :
  let cfg := Config.init (Plugin.resolve_marker_args Plugin.tasks_kw) in
  Config.detect_tasks cfg = VBool true
  /\ Config.detect_threads cfg = VBool false
  /\ Config.detect_blocking cfg = VBool false.
Proof. repeat split; by vm_compute. Qed.

(** ** The combined detector *)

Section CombinedFacts.

Import Config Combined.

Variable env : Env.

Ltac run :=
  unfold async_with, sync_with, with_exit, aenter, aexit, enter, exit,
    try_except, detector_enter, detector_exit, mbind, M_bind, bind, mret,
    M_ret, ret, raise, produced, started_kinds, new in *;
  simpl in *.

(** What [__aenter__] does on a fresh detector, when no entry method
    raises: it enters the enabled detectors, tasks first, threads last, and
    holds exactly those. *)
Lemma aenter_trace cfg async self' starts :
  aenter env (new cfg async) [] = (Ok self', starts) ->
  starts = Enter <$> started_kinds cfg async
  /\ forall k, holds self' k = bool_decide (k ∈ started_kinds cfg async).
Proof.
  destruct async; destruct (truthy (detect_tasks cfg)) eqn:Et;
    destruct (truthy (detect_blocking cfg)) eqn:Eb;
    destruct (truthy (detect_threads cfg)) eqn:Eh;
    run; rewrite ?Et, ?Eb, ?Eh; simpl;
    repeat (match goal with
            | |- context [enter_outcome env ?k] => destruct (enter_outcome env k)
            end; simpl; rewrite ?Et, ?Eb, ?Eh; simpl);
    intros Hrun; inversion Hrun; subst; simpl;
    (split; [reflexivity|]); intros []; by vm_compute.
Qed.

(** What [__aexit__] does when the thread and the blocking detector raise
    nothing but their own error: every detector held is exited, threads
    first, tasks last. *)
Lemma aexit_trace self exc tr :
  raises_own_error env ThreadDetector ->
  raises_own_error env BlockingDetector ->
  snd (aexit env self exc tr)
  = tr ++ (Exit <$> filter (fun k => holds self k = true) exit_order).
Proof.
  intros Hth Hbl. run. unfold exit_order, holds.
  destruct (thread_detector self), (blocking_detector self), (task_detector self);
    simpl;
    repeat (match goal with
            | |- context [exit_outcome env ?k exc] =>
                let E := fresh "E" in
                destruct (exit_outcome env k exc) eqn:E; simpl
            end);
    repeat match goal with
           | E : exit_outcome env ThreadDetector exc = Some _ |- _ =>
               let C := fresh "C" in
               pose proof (Hth _ _ E) as C; simpl in C; rewrite C; clear E; simpl
           | E : exit_outcome env BlockingDetector exc = Some _ |- _ =>
               let C := fresh "C" in
               pose proof (Hbl _ _ E) as C; simpl in C; rewrite C; clear E; simpl
           end;
    repeat case_match; simplify_eq/=;
    rewrite <- ?app_assoc; simpl; rewrite ?app_nil_r; reflexivity.
Qed.

(** Going through the exit order and keeping the started detectors gives
    the start order reversed. *)
Lemma exit_order_reverses cfg async :
  filter (fun k => bool_decide (k ∈ started_kinds cfg async) = true) exit_order
  = rev (started_kinds cfg async).
Proof.
  unfold started_kinds, exit_order.
  destruct (async && truthy (detect_tasks cfg)),
           (async && truthy (detect_blocking cfg)),
           (truthy (detect_threads cfg)); by vm_compute.
Qed.

Lemma with_exit_trace (m : option exn -> M unit) body tr :
  snd (with_exit m body tr) = snd (m body tr).
Proof. unfold with_exit. by destruct (m body tr) as [[?|?] ?]. Qed.

Lemma entered_Enter ks : entered (Enter <$> ks) = ks.
Proof.
  unfold entered. induction ks as [|k ks IH]; csimpl; [done|]. by rewrite IH.
Qed.

Lemma exited_Enter ks : exited (Enter <$> ks) = [].
Proof. unfold exited. induction ks as [|k ks IH]; csimpl; done. Qed.

Lemma exited_Exit ks : exited (Exit <$> ks) = ks.
Proof.
  unfold exited. induction ks as [|k ks IH]; csimpl; [done|]. by rewrite IH.
Qed.

Lemma entered_Exit ks : entered (Exit <$> ks) = [].
Proof. unfold entered. induction ks as [|k ks IH]; csimpl; done. Qed.

Lemma entered_app tr1 tr2 : entered (tr1 ++ tr2) = entered tr1 ++ entered tr2.
Proof. apply omap_app. Qed.

Lemma exited_app tr1 tr2 : exited (tr1 ++ tr2) = exited tr1 ++ exited tr2.
Proof. apply omap_app. Qed.

(** C5, amended. For every exit, by return or by an exception of the body
    of any type, of an async combined scope that was entered ([__aenter__]
    returned), provided the exits of the thread and of the blocking detector
    raise nothing but their own error class ([ThreadLeakError],
    [EventLoopBlockError]): every detector that was started is stopped, in
    the reverse of the start order: started tasks, blocking, threads;
    stopped threads, blocking, tasks. *)
Theorem async_scope_stops_in_reverse cfg async body self' starts :
  aenter env (new cfg async) [] = (Ok self', starts) ->
  raises_own_error env ThreadDetector ->
  raises_own_error env BlockingDetector ->
  let tr := snd (async_with env (new cfg async) body []) in
  entered tr = started_kinds cfg async
  /\ tr = (Enter <$> started_kinds cfg async) ++ (Exit <$> rev (started_kinds cfg async))
  /\ exited tr = rev (entered tr).
Proof.
  intros Hent Hth Hbl tr.
  destruct (aenter_trace _ _ _ _ Hent) as (Hst & Hhold).
  assert (Htr : tr = (Enter <$> started_kinds cfg async)
                     ++ (Exit <$> rev (started_kinds cfg async))).
  { subst tr. unfold async_with. rewrite Hent. rewrite with_exit_trace.
    rewrite (aexit_trace self' body starts Hth Hbl). subst starts. do 2 f_equal.
    rewrite <- exit_order_reverses. apply list_filter_iff. intros k.
    by rewrite Hhold. }
  rewrite Htr, entered_app, exited_app, entered_Enter, entered_Exit,
    exited_Enter, exited_Exit, app_nil_r. simpl. done.
Qed.

(** What [__aexit__] returns or raises when every detector raises nothing
    but its own error class. *)
Lemma aexit_result self exc tr :
  (forall k, raises_own_error env k) ->
  fst (aexit env self exc tr)
  = match produced env self exc with
    | [] => Ok tt
    | _ :: _ =>
        Raise (PyleakExceptionGroup (group_message (produced env self exc))
                                    (produced env self exc))
    end.
Proof.
  intros Hown.
  pose proof (Hown ThreadDetector) as Hth.
  pose proof (Hown BlockingDetector) as Hbl.
  pose proof (Hown TaskDetector) as Hta.
  run.
  destruct (thread_detector self), (blocking_detector self), (task_detector self);
    simpl;
    repeat (match goal with
            | |- context [exit_outcome env ?k exc] =>
                let E := fresh "E" in
                destruct (exit_outcome env k exc) eqn:E; simpl
            end);
    repeat match goal with
           | E : exit_outcome env ThreadDetector exc = Some _ |- _ =>
               let C := fresh "C" in
               pose proof (Hth _ _ E) as C; simpl in C; rewrite C; clear E; simpl
           | E : exit_outcome env BlockingDetector exc = Some _ |- _ =>
               let C := fresh "C" in
               pose proof (Hbl _ _ E) as C; simpl in C; rewrite C; clear E; simpl
           | E : exit_outcome env TaskDetector exc = Some _ |- _ =>
               let C := fresh "C" in
               pose proof (Hta _ _ E) as C; simpl in C; rewrite C; clear E; simpl
           end;
    reflexivity.
Qed.

(** C3, amended. At the exit of an async combined scope, provided the exit
    of each detector raises nothing but its own error class
    ([ThreadLeakError], [EventLoopBlockError], [TaskLeakError]): whenever one
    or more detectors raise their error, one included, the errors are
    wrapped into a single [PyleakExceptionGroup] that keeps every original,
    in the order the detectors are stopped; when none does, nothing is
    raised. *)
Theorem aexit_wraps_every_error self exc tr :
  (forall k, raises_own_error env k) ->
  (produced env self exc = [] /\ fst (aexit env self exc tr) = Ok tt)
  \/ (1 <= length (produced env self exc)
      /\ fst (aexit env self exc tr)
         = Raise (PyleakExceptionGroup (group_message (produced env self exc))
                                       (produced env self exc))).
Proof.
  intros Hown. rewrite (aexit_result self exc tr Hown).
  destruct (produced env self exc) as [|e errs]; [by left|].
  right. split; [simpl; lia|]. reflexivity.
Qed.

(** C4, amended. Provided the exit of each detector raises nothing but its
    own error class: when the body raised and one or more detectors raise
    their error at exit, the exception that leaves the scope is the
    [PyleakExceptionGroup] of the detector errors, which replaces the body's
    exception: the body's exception does not remain the primary error. When
    no detector raises, the body's exception leaves the scope unchanged. *)
Theorem findings_replace_user_exception self e tr :
  (forall k, raises_own_error env k) ->
  fst (with_exit (aexit env self) (Some e) tr)
  = match produced env self (Some e) with
    | [] => Propagated e None
    | _ :: _ =>
        Propagated
          (PyleakExceptionGroup (group_message (produced env self (Some e)))
                                (produced env self (Some e)))
          (Some e)
    end.
Proof.
  intros Hown. pose proof (aexit_result self (Some e) tr Hown) as Hres.
  unfold with_exit. destruct (aexit env self (Some e) tr) as [r tr'].
  simpl in Hres. subst r. by destruct (produced env self (Some e)).
Qed.

(** C10. A combined detector entered as a synchronous scope calls the
    thread detector and nothing else, whatever the configuration enables:
    it holds no task and no blocking detector, and what leaves the scope is
    decided by the body and the thread detector alone. *)
Theorem sync_scope_only_thread_detector cfg async body :
  let tr := snd (sync_with env (new cfg async) body []) in
  Forall (fun ev => event_kind ev = ThreadDetector) tr
  /\ tr = (if truthy (detect_threads cfg)
           then match enter_outcome env ThreadDetector with
                | None => [Enter ThreadDetector; Exit ThreadDetector]
                | Some _ => [Enter ThreadDetector]
                end
           else [])
  /\ match enter env (new cfg async) [] with
     | (Ok self', _) => task_detector self' = None /\ blocking_detector self' = None
     | (Raise _, _) => True
     end
  /\ fst (sync_with env (new cfg async) body [])
     = (if truthy (detect_threads cfg)
        then match enter_outcome env ThreadDetector with
             | Some e => Propagated e None
             | None =>
                 match exit_outcome env ThreadDetector body with
                 | Some e' => Propagated e' body
                 | None => match body with
                           | None => Returned
                           | Some e => Propagated e None
                           end
                 end
             end
        else match body with None => Returned | Some e => Propagated e None end).
Proof.
  run. destruct (truthy (detect_threads cfg)) eqn:Eh; simpl;
    [destruct (enter_outcome env ThreadDetector); simpl;
     [|destruct (exit_outcome env ThreadDetector body); simpl]|];
    repeat split; repeat constructor.
Qed.

End CombinedFacts.

(** *** The combined detector on concrete runs *)

Section CombinedRuns.

Import Config Combined.

Lemma async_scope_stops_in_reverse_witness :
  aenter two_leaks_env (new (init ∅) true) []
  = (Ok all_started, [Enter TaskDetector; Enter BlockingDetector; Enter ThreadDetector])
  /\ raises_own_error two_leaks_env ThreadDetector
  /\ raises_own_error two_leaks_env BlockingDetector
  /\ (let tr := snd (async_with two_leaks_env (new (init ∅) true) (Some user_error) []) in
      entered tr = started_kinds (init ∅) true
      /\ tr = (Enter <$> started_kinds (init ∅) true)
              ++ (Exit <$> rev (started_kinds (init ∅) true))
      /\ exited tr = rev (entered tr)).
Proof.
  assert (H1 : aenter two_leaks_env (new (init ∅) true) []
               = (Ok all_started,
                  [Enter TaskDetector; Enter BlockingDetector; Enter ThreadDetector]))
    by (vm_compute; reflexivity).
  assert (H2 : raises_own_error two_leaks_env ThreadDetector)
    by (intros exc e; simpl; intros [= <-]; reflexivity).
  assert (H3 : raises_own_error two_leaks_env BlockingDetector)
    by (intros exc e; simpl; intros [=]).
  repeat (split; [assumption|]).
  exact (async_scope_stops_in_reverse two_leaks_env (init ∅) true (Some user_error)
           all_started _ H1 H2 H3).
Defined.

(** C5 as claimed fails: three detectors were started, the thread
    detector's exit raises an error that is not a [ThreadLeakError], and the
    blocking and the task detector are never stopped. *)
Lemma faulty_exit_leaves_detectors_running :
  entered (snd (async_with faulty_thread_env (new (init ∅) true) None []))
  = [TaskDetector; BlockingDetector; ThreadDetector]
  /\ exited (snd (async_with faulty_thread_env (new (init ∅) true) None []))
     = [ThreadDetector]
  /\ exited (snd (async_with faulty_thread_env (new (init ∅) true) None []))
     <> rev (entered (snd (async_with faulty_thread_env (new (init ∅) true) None []))).
Proof. repeat split; by vm_compute. Qed.

Lemma aexit_wraps_every_error_witness :
  (forall k, raises_own_error two_leaks_env k)
  /\ ((produced two_leaks_env all_started None = []
       /\ fst (aexit two_leaks_env all_started None []) = Ok tt)
      \/ (1 <= length (produced two_leaks_env all_started None)
          /\ fst (aexit two_leaks_env all_started None [])
             = Raise (PyleakExceptionGroup
                        (group_message (produced two_leaks_env all_started None))
                        (produced two_leaks_env all_started None)))).
Proof.
  assert (H : forall k, raises_own_error two_leaks_env k)
    by (intros [] exc e; simpl; intros [= <-]; reflexivity).
  split; [assumption|].
  exact (aexit_wraps_every_error two_leaks_env all_started None [] H).
Defined.

(** C3 as claimed fails: with exactly one detector error, what is raised is
    not that error but a group around it. *)
Lemma single_error_is_wrapped :
  produced task_leak_env all_started None
  = [TaskLeakError "Detected 1 leaked asyncio tasks"]
  /\ fst (aexit task_leak_env all_started None [])
     <> Raise (TaskLeakError "Detected 1 leaked asyncio tasks")
  /\ fst (aexit task_leak_env all_started None [])
     = Raise (PyleakExceptionGroup
                (group_message [TaskLeakError "Detected 1 leaked asyncio tasks"])
                [TaskLeakError "Detected 1 leaked asyncio tasks"]).
Proof.
  split; [by vm_compute|]. split; [by vm_compute|]. by vm_compute.
Qed.

Lemma findings_replace_user_exception_witness :
  (forall k, raises_own_error task_leak_env k)
  /\ fst (with_exit (aexit task_leak_env all_started) (Some user_error) [])
     = match produced task_leak_env all_started (Some user_error) with
       | [] => Propagated user_error None
       | _ :: _ =>
           Propagated
             (PyleakExceptionGroup
                (group_message (produced task_leak_env all_started (Some user_error)))
                (produced task_leak_env all_started (Some user_error)))
             (Some user_error)
       end.
Proof.
  assert (H : forall k, raises_own_error task_leak_env k)
    by (intros [] exc e; simpl; intros [= <-]; reflexivity).
  split; [assumption|].
  exact (findings_replace_user_exception task_leak_env all_started user_error [] H).
Defined.

(** C4 as claimed fails: the body raised, the task detector found a leak,
    and the exception that leaves the scope is the group, not the body's. *)
Lemma user_exception_is_replaced :
  primary (fst (async_with task_leak_env (new (init ∅) true) (Some user_error) []))
  <> Some user_error
  /\ fst (async_with task_leak_env (new (init ∅) true) (Some user_error) [])
     = Propagated
         (PyleakExceptionGroup
            (group_message [TaskLeakError "Detected 1 leaked asyncio tasks"])
            [TaskLeakError "Detected 1 leaked asyncio tasks"])
         (Some user_error).
Proof. split; by vm_compute. Qed.

End CombinedRuns.

(** ** The caller context *)

Section UtilsFacts.

Import Utils.

Lemma startswith_spec pre s :
  startswith s pre = true <-> is_prefix pre s.
Proof.
  revert s. induction pre as [|c pre IH]; intros s; simpl.
  - split; [intros _; by exists s|done].
  - destruct s as [|d s].
    + split; [done|]. by intros [post [=]].
    + rewrite andb_true_iff, bool_decide_eq_true, IH. split.
      * intros [-> [post ->]]. by exists post.
      * intros [post [= -> ->]]. split; [done|]. by exists post.
Qed.

Lemma contains_spec needle hay :
  contains needle hay = true <-> is_substring needle hay.
Proof.
  induction hay as [|a hay IH].
  - simpl. rewrite orb_false_r, startswith_spec. split.
    + intros [post ->]. by exists "", post.
    + intros [pre [post Heq]]. destruct pre; [|done]. by exists post.
  - cbn [contains]. rewrite orb_true_iff, IH, startswith_spec. split.
    + intros [[post ->]|[pre [post ->]]].
      * by exists "", post.
      * by exists (String a pre), post.
    + intros [pre [post Heq]]. destruct pre as [|b pre].
      * left. by exists post.
      * right. injection Heq as -> ->. by exists pre, post.
Qed.

Lemma _is_user_file_spec src_dir f :
  _is_user_file src_dir f = true <-> user_file src_dir f.
Proof.
  unfold _is_user_file, user_file.
  rewrite <- !contains_spec, <- startswith_spec.
  destruct (contains "site-packages" f), (contains "lib/python" f),
    (startswith f src_dir); simpl; intuition congruence.
Qed.

(** [l[:-k]] for a positive [k] drops the last [k] elements. *)
Lemma py_slice_to_neg {A} (l : list A) (k : Z) :
  (0 < k)%Z ->
  py_slice_to l (- k) = take (Z.to_nat (Z.of_nat (length l) - k)) l.
Proof.
  intros Hk. unfold py_slice_to.
  destruct (Z.ltb_spec (- k) 0); [|lia].
  f_equal. lia.
Qed.

(** [l[:-0]] is [l[:0]]: nothing is kept. *)
Lemma py_slice_to_zero {A} (l : list A) : py_slice_to l (- 0) = [].
Proof. unfold py_slice_to. simpl. by rewrite Z.min_l by lia. Qed.

Lemma py_index_neg {A} (l : list A) (k : Z) :
  (0 < k <= Z.of_nat (length l))%Z ->
  exists x, py_index l (- k) = Ok x
            /\ l !! Z.to_nat (Z.of_nat (length l) - k) = Some x.
Proof.
  intros Hk. unfold py_index.
  destruct (Z.ltb_spec (- k) 0); [|lia].
  destruct (Z.leb_spec 0 (- k + Z.of_nat (length l))); [|lia].
  destruct (Z.ltb_spec (- k + Z.of_nat (length l)) (Z.of_nat (length l))); [|lia].
  simpl. replace (- k + Z.of_nat (length l))%Z with (Z.of_nat (length l) - k)%Z by lia.
  destruct (l !! Z.to_nat (Z.of_nat (length l) - k)) as [x|] eqn:E.
  - by exists x.
  - apply lookup_ge_None in E. lia.
Qed.

End UtilsFacts.

(** C9, amended. For every call of [find_my_caller] with a positive
    [ignore_frames] smaller than the depth of the stack, a context is
    returned, and its files are the file names of the frames below the
    innermost [ignore_frames] frames that are user files: not under
    site-packages, not in the standard library, not in pyleak's own
    directory. *)
Theorem find_my_caller_files src_dir (stack : list Utils.FrameSummary)
    (ignore_frames : Z) :
  (0 < ignore_frames < Z.of_nat (length stack))%Z ->
  exists ctx fs,
    Utils.find_my_caller src_dir stack ignore_frames = Ok ctx
    /\ Utils.files ctx = Some fs
    /\ forall f : string,
         f ∈ fs <->
         exists (i : nat) fr,
           stack !! i = Some fr
           /\ Utils.filename fr = f
           /\ (Z.of_nat i < Z.of_nat (length stack) - ignore_frames)%Z
           /\ Utils.user_file src_dir f.
Proof.
  intros Hk. unfold Utils.find_my_caller.
  destruct (py_index_neg stack (ignore_frames + 1)) as (frame & Hidx & _); [lia|].
  replace (- ignore_frames - 1)%Z with (- (ignore_frames + 1))%Z by lia.
  rewrite Hidx. simpl. eexists _, _. split; [reflexivity|]. split; [reflexivity|].
  intros f. rewrite elem_of_list_to_set, list_elem_of_fmap.
  rewrite py_slice_to_neg by lia. split.
  - intros (fr & -> & Hin). apply list_elem_of_filter in Hin as [Huser Hin].
    apply list_elem_of_lookup in Hin as [i Hi].
    apply lookup_take_Some in Hi as [Hi Hlt].
    exists i, fr. split; [done|]. split; [done|]. split; [lia|].
    by apply _is_user_file_spec.
  - intros (i & fr & Hi & <- & Hlt & Huser). exists fr. split; [done|].
    apply list_elem_of_filter. split; [by apply _is_user_file_spec|].
    apply list_elem_of_lookup. exists i. apply lookup_take_Some. split; [done|lia].
Qed.

Lemma find_my_caller_files_witness :
  (0 < 2 < Z.of_nat (length Utils.sample_stack))%Z
  /\ exists ctx fs,
       Utils.find_my_caller "/opt/pyleak" Utils.sample_stack 2 = Ok ctx
       /\ Utils.files ctx = Some fs
       /\ forall f : string,
            f ∈ fs <->
            exists (i : nat) fr,
              Utils.sample_stack !! i = Some fr
              /\ Utils.filename fr = f
              /\ (Z.of_nat i < Z.of_nat (length Utils.sample_stack) - 2)%Z
              /\ Utils.user_file "/opt/pyleak" f.
Proof.
  assert (H : (0 < 2 < Z.of_nat (length Utils.sample_stack))%Z) by (simpl; lia).
  split; [assumption|].
  exact (find_my_caller_files "/opt/pyleak" Utils.sample_stack 2 H).
Defined.

(** C9 as claimed fails: the standard-library frame is on the stack, and its
    file is not among the files of the context. *)
Lemma related_files_are_filtered :
  Utils.find_my_caller "/opt/pyleak" Utils.sample_stack 2
  = Ok {| Utils.cc_filename := "/home/u/proj/tests/test_app.py";
          Utils.cc_name := "test_app";
          Utils.cc_lineno := Some 12%Z;
          Utils.files := Some {["/home/u/proj/tests/test_app.py"]} |}
  /\ ({["/home/u/proj/tests/test_app.py"]} : gset string)
     <> Utils.stack_files Utils.sample_stack
  /\ "/usr/lib/python3.11/asyncio/runners.py" ∈ Utils.stack_files Utils.sample_stack
  /\ "/usr/lib/python3.11/asyncio/runners.py"
     ∉ ({["/home/u/proj/tests/test_app.py"]} : gset string).
Proof.
  assert (Hin : "/usr/lib/python3.11/asyncio/runners.py"
                ∈ Utils.stack_files Utils.sample_stack).
  { unfold Utils.stack_files. apply elem_of_list_to_set. simpl. left. }
  assert (Hnot : "/usr/lib/python3.11/asyncio/runners.py"
                 ∉ ({["/home/u/proj/tests/test_app.py"]} : gset string)).
  { intros H%elem_of_singleton. discriminate H. }
  split; [by vm_compute|]. split; [|done].
  intros Heq. apply Hnot. by rewrite Heq.
Qed.

(** With [ignore_frames = 0] the slice [stack[:-0]] is empty: no file is
    kept at all. *)
Lemma find_my_caller_zero_keeps_nothing src_dir stack ctx :
  Utils.find_my_caller src_dir stack 0 = Ok ctx -> Utils.files ctx = Some ∅.
Proof.
  unfold Utils.find_my_caller. destruct (Utils.py_index stack (- 0 - 1)); simpl; [|done].
  intros [= <-]. simpl. by rewrite py_slice_to_zero.
Qed.

(** ** The stall detector *)

Section StallFacts.

Import Stall.

Variables (threshold check_interval : Z).
Variable origin_site : string.
Variables (start d : Z).
Variable captured : list Frame.

Hypothesis threshold_nonneg : (0 <= threshold)%Z.
Hypothesis interval_pos : (0 < check_interval)%Z.

(** A wake-up that does not fall due inside the block runs on time and
    records nothing. *)
Lemma heartbeat_on_time st :
  ~ (start <= previous_wake_time st + check_interval < start + d)%Z ->
  heartbeat threshold check_interval origin_site start d captured st
  = {| previous_wake_time := previous_wake_time st + check_interval;
               events := events st |}.
Proof.
  intros Hout. unfold heartbeat, on_resume, resume_time.
  destruct (Z.leb_spec start (previous_wake_time st + check_interval));
    destruct (Z.ltb_spec (previous_wake_time st + check_interval) (start + d));
    simpl; try lia;
    (destruct (Z.ltb_spec threshold
                 (previous_wake_time st + check_interval
                  - previous_wake_time st - check_interval)); [lia|reflexivity]).
Qed.

(** A wake-up that falls due inside the block runs when the block ends. *)
Lemma heartbeat_delayed st :
  (start <= previous_wake_time st + check_interval < start + d)%Z ->
  heartbeat threshold check_interval origin_site start d captured st
  = on_resume threshold check_interval origin_site st (start + d) captured.
Proof.
  intros Hin. unfold heartbeat, resume_time.
  destruct (Z.leb_spec start (previous_wake_time st + check_interval)); [|lia].
  destruct (Z.ltb_spec (previous_wake_time st + check_interval) (start + d)); [|lia].
  reflexivity.
Qed.

(** A block no longer than the threshold never adds an event. *)
Lemma heartbeat_quiet st :
  (d <= threshold)%Z ->
  events (heartbeat threshold check_interval origin_site start d captured st)
  = events st.
Proof.
  intros Hd.
  destruct (decide (start <= previous_wake_time st + check_interval < start + d)%Z)
    as [Hin|Hout].
  - rewrite heartbeat_delayed by done. unfold on_resume.
    destruct (Z.ltb_spec threshold
                (start + d - previous_wake_time st - check_interval)); [lia|done].
  - by rewrite heartbeat_on_time.
Qed.

Lemma monitor_quiet n st :
  (d <= threshold)%Z ->
  events (monitor threshold check_interval origin_site n start d captured st)
  = events st.
Proof.
  intros Hd. revert st. induction n as [|n IH]; intros st; simpl; [done|].
  by rewrite IH, heartbeat_quiet.
Qed.

(** Once the block is over, every wake-up is on time. *)
Lemma monitor_after_block n st :
  (start + d <= previous_wake_time st + check_interval)%Z ->
  events (monitor threshold check_interval origin_site n start d captured st) = events st.
Proof.
  revert st. induction n as [|n IH]; intros st Hafter; simpl; [done|].
  rewrite IH; rewrite heartbeat_on_time by lia; simpl; [done|lia].
Qed.

(** A block longer than threshold plus one interval, starting at or after
    the last wake-up and over before the scope ends, is recorded once. *)
Lemma monitor_records_once n st :
  (threshold + check_interval < d)%Z ->
  events st = [] ->
  (previous_wake_time st <= start)%Z ->
  (start + d
   <= previous_wake_time
        (monitor threshold check_interval origin_site n start d captured st))%Z ->
  exists ev,
    events (monitor threshold check_interval origin_site n start d captured st) = [ev]
    /\ block_id ev = 1%Z
    /\ timestamp ev = (start + d)%Z
    /\ (d - check_interval <= duration ev <= d)%Z
    /\ stack ev = captured.
Proof.
  intros Hd. revert st. induction n as [|n IH]; intros st Hev Hprev Hend; simpl in *.
  - lia.
  - destruct (decide (previous_wake_time st + check_interval < start)%Z) as [Hbefore|Hreach].
    + rewrite heartbeat_on_time in * by lia. apply IH; simpl; [done|lia|done].
    + rewrite heartbeat_delayed in * by lia.
      rewrite monitor_after_block.
      * unfold on_resume. rewrite Hev.
        destruct (Z.ltb_spec threshold
                    (start + d - previous_wake_time st - check_interval)); [|lia].
        simpl. eexists. split; [reflexivity|]. simpl. repeat split; lia.
      * unfold on_resume. case_match; simpl; lia.
Qed.

(** Every period advances the last wake-up by at least one interval. *)
Lemma heartbeat_advances st :
  (previous_wake_time st + check_interval
   <= previous_wake_time
        (heartbeat threshold check_interval origin_site start d captured st))%Z.
Proof.
  unfold heartbeat, on_resume, resume_time.
  destruct (Z.leb_spec start (previous_wake_time st + check_interval));
    destruct (Z.ltb_spec (previous_wake_time st + check_interval) (start + d));
    simpl; case_match; simpl; lia.
Qed.

Lemma monitor_reaches n st :
  (previous_wake_time st + Z.of_nat n * check_interval
   <= previous_wake_time
        (monitor threshold check_interval origin_site n start d captured st))%Z.
Proof.
  revert st. induction n as [|n IH]; intros st; [simpl; lia|].
  cbn [monitor].
  pose proof (IH (heartbeat threshold check_interval origin_site start d captured st)).
  pose proof (heartbeat_advances st). lia.
Qed.

End StallFacts.

(** C2, amended. For every threshold [t >= 0] and [check_interval > 0], a
    synchronous block of duration [d] starting at or after the heartbeat's
    last wake-up, in a scope of [n] heartbeat periods that outlasts the
    block: if [d <= t], zero events and no side effect (whatever the action,
    the dispatch at exit leaves nothing); if [d > t + check_interval], exactly
    one event, with [block_id] 1, the resumption time as timestamp, the
    captured stack, and a duration between [d - check_interval] and [d]. For
    [t < d <= t + check_interval] nothing is promised: it depends on where
    the block falls in the heartbeat period. *)
Theorem stall_recorded_once (threshold check_interval : Z) (origin_site : string)
    (start d t0 : Z) (captured : list Stall.Frame) (n : nat)
    (offending : Stall.Frame -> bool) :
  (0 <= threshold)%Z ->
  (0 < check_interval)%Z ->
  (t0 <= start)%Z ->
  (start + d <= t0 + Z.of_nat n * check_interval)%Z ->
  let final :=
    Stall.monitor threshold check_interval origin_site n start d captured
      (Stall.armed t0) in
  if (d <=? threshold)%Z
  then Stall.events final = []
       /\ forall a, Stall.dispatch offending a origin_site (Stall.events final)
                    = Stall.nothing_dispatched
  else if (threshold + check_interval <? d)%Z
  then exists ev,
         Stall.events final = [ev]
         /\ Stall.block_id ev = 1%Z
         /\ Stall.timestamp ev = (start + d)%Z
         /\ (d - check_interval <= Stall.duration ev <= d)%Z
         /\ Stall.stack ev = captured
  else True.
Proof.
  intros Ht Hci Hstart Hlong final.
  destruct (Z.leb_spec d threshold) as [Hd|Hd].
  - assert (Hev : Stall.events final = [])
      by (subst final; by rewrite monitor_quiet).
    split; [done|]. intros a. by rewrite Hev.
  - destruct (Z.ltb_spec (threshold + check_interval) d) as [Hd'|Hd']; [|done].
    apply monitor_records_once; try done.
    pose proof (monitor_reaches threshold check_interval origin_site start d
                  captured n (Stall.armed t0)) as Hreach.
    simpl in Hreach. simpl. lia.
Qed.

Lemma stall_recorded_once_witness :
  (0 <= 100)%Z
  /\ (0 < 10)%Z
  /\ (0 <= 3)%Z
  /\ (3 + 500 <= 0 + Z.of_nat 60 * 10)%Z
  /\ exists ev,
       Stall.events (Stall.monitor 100 10 "test_app" 60 3 500 Stall.sleep_stack
                       (Stall.armed 0))
       = [ev]
       /\ Stall.block_id ev = 1%Z
       /\ Stall.timestamp ev = (3 + 500)%Z
       /\ (500 - 10 <= Stall.duration ev <= 500)%Z
       /\ Stall.stack ev = Stall.sleep_stack.
Proof.
  assert (H1 : (0 <= 100)%Z) by lia.
  assert (H2 : (0 < 10)%Z) by lia.
  assert (H3 : (0 <= 3)%Z) by lia.
  assert (H4 : (3 + 500 <= 0 + Z.of_nat 60 * 10)%Z) by (simpl; lia).
  repeat (split; [assumption|]).
  exact (stall_recorded_once 100 10 "test_app" 3 500 0 Stall.sleep_stack 60
           Stall.user_frame H1 H2 H3 H4).
Defined.

(** The run of the witness, evaluated: one event, 493 units long. *)
Lemma stall_run_long_block :
  Stall.events (Stall.monitor 100 10 "test_app" 60 3 500 Stall.sleep_stack
                  (Stall.armed 0))
  = [{| Stall.block_id := 1; Stall.timestamp := 503; Stall.duration := 493;
        Stall.stack := Stall.sleep_stack; Stall.origin := "test_app" |}].
Proof. by vm_compute. Qed.

(** C2 as claimed fails: with threshold 100 and interval 10, a block of 105
    that starts with the heartbeat's wake-up delays the next wake-up by 95
    only, and no event is recorded although the block is longer than the
    threshold and the scope of 30 periods outlasts it. The same block
    starting 9 units later is recorded. *)
Lemma stall_above_threshold_missed :
  (100 < 105)%Z
  /\ (0 + 105 <= 0 + Z.of_nat 30 * 10)%Z
  /\ Stall.events (Stall.monitor 100 10 "test_app" 30 0 105 [] (Stall.armed 0)) = []
  /\ (0 + 105
      <= Stall.previous_wake_time
           (Stall.monitor 100 10 "test_app" 30 0 105 [] (Stall.armed 0)))%Z
  /\ length (Stall.events (Stall.monitor 100 10 "test_app" 30 9 105 [] (Stall.armed 0)))
     = 1%nat.
Proof. split; [lia|]. split; [simpl; lia|]. repeat split; by vm_compute. Qed.

(** ** The action dispatch *)




(** The [warn] run of the test [test_action_warning]: three warnings for
    one event, the last naming the blocking line of the user's code and not
    the line of the library frame above it. *)
Lemma dispatch_warn_test_run :
  Stall.warnings
    (Stall.dispatch Stall.user_frame Stall.Warn "bad_sleep_with_warning"
       [Stall.sleep_event])
  = [Stall.EventNotice 990000 Stall.sleep_stack;
     Stall.SummaryNotice 1;
     Stall.OriginNotice "bad_sleep_with_warning" (Some "time.sleep(1)")].
Proof. by vm_compute. Qed.

(** Without events no action does anything. *)
Lemma dispatch_nothing offending a origin_site :
  Stall.dispatch offending a origin_site [] = Stall.nothing_dispatched.
Proof. reflexivity. Qed.

(** * Further properties of the code *)

(** ** The configuration and the marker *)

(** A key that [PyLeakConfig.__init__] does not read changes nothing: a
    misspelt or unknown marker keyword is silently ignored. *)
Theorem init_ignores_unknown_keys (m : gmap string pyval) (k : string) (v : pyval) :
  k ∉ Config.marker_keys ->
  Config.init (<[k := v]> m) = Config.init m.
Proof.
  intros Hk. unfold Config.init, Config.dict_get.
  rewrite !lookup_insert_ne
    by (intros ->; apply Hk, (bool_decide_unpack _); by vm_compute).
  reflexivity.
Qed.

Lemma init_ignores_unknown_keys_witness :
  ("exclude_daemon_threads" ∉ Config.marker_keys)
  /\ Config.init (<["exclude_daemon_threads" := VBool false]> ∅) = Config.init ∅.
Proof.
  assert (H : "exclude_daemon_threads" ∉ Config.marker_keys)
    by (apply (bool_decide_unpack _); by vm_compute).
  split; [assumption|].
  exact (init_ignores_unknown_keys ∅ "exclude_daemon_threads" (VBool false) H).
Defined.

(** With positional flags alone the resolved dictionary holds nothing but
    the three detector keys, each with [True]: a positional flag can switch a
    detector on, never off, and never sets any other option. *)
Theorem flags_only_store_true (l : list pyval) (k : string) (v : pyval) :
  Plugin.resolve_marker_args {| Plugin.args := l; Plugin.kwargs := ∅ |} !! k = Some v ->
  v = VBool true /\ k ∈ ["tasks"; "threads"; "blocking"].
Proof.
  intros Hk. split; [by apply (resolve_flags_only_true l k)|].
  revert Hk. unfold Plugin.resolve_marker_args. cbv zeta. simpl.
  case_bool_decide as Hempty.
  - rewrite !lookup_insert. repeat case_decide; subst;
      rewrite ?lookup_empty; intros Hk; try discriminate Hk;
      apply (bool_decide_unpack _); by vm_compute.
  - rewrite (left_id_L ∅ (∪)). intros Hk.
    apply (flag_loop_keys l ∅); [|by eexists].
    intros k' [? Hk']. by rewrite lookup_empty in Hk'.
Qed.

Lemma flags_only_store_true_witness :
  Plugin.resolve_marker_args {| Plugin.args := [VStr "all"; VStr "bogus"];
                                Plugin.kwargs := ∅ |} !! "threads"
  = Some (VBool true)
  /\ VBool true = VBool true
  /\ "threads" ∈ ["tasks"; "threads"; "blocking"].
Proof.
  assert (H : Plugin.resolve_marker_args
                {| Plugin.args := [VStr "all"; VStr "bogus"]; Plugin.kwargs := ∅ |}
              !! "threads" = Some (VBool true)) by (by vm_compute).
  split; [assumption|].
  exact (flags_only_store_true [VStr "all"; VStr "bogus"] "threads" (VBool true) H).
Defined.

(** A keyword argument of the marker always reaches the resolved
    dictionary with its own value, whatever the positional flags say: the
    keywords are applied after the flags. *)
Theorem resolve_keeps_keywords (marker : Plugin.Marker) (k : string) (v : pyval) :
  Plugin.kwargs marker !! k = Some v ->
  Plugin.resolve_marker_args marker !! k = Some v
  /\ forall dflt, Config.dict_get (Plugin.resolve_marker_args marker) k dflt = v.
Proof.
  intros Hkw.
  assert (Hres : Plugin.resolve_marker_args marker !! k = Some v).
  { unfold Plugin.resolve_marker_args. cbv zeta. case_bool_decide as Hempty.
    - exfalso.
      assert (Hl : (Plugin.kwargs marker
                    ∪ foldl Plugin.flag_step ∅ (Plugin.args marker)) !! k = Some v)
        by (by apply lookup_union_Some_l).
      rewrite Hempty, lookup_empty in Hl. discriminate Hl.
    - by apply lookup_union_Some_l. }
  split; [done|]. intros dflt. unfold Config.dict_get. by rewrite Hres.
Qed.

Lemma resolve_keeps_keywords_witness :
  Plugin.kwargs Plugin.all_but_threads !! "threads" = Some (VBool false)
  /\ Plugin.resolve_marker_args Plugin.all_but_threads !! "threads" = Some (VBool false)
  /\ forall dflt,
       Config.dict_get (Plugin.resolve_marker_args Plugin.all_but_threads) "threads" dflt
       = VBool false.
Proof.
  assert (H : Plugin.kwargs Plugin.all_but_threads !! "threads" = Some (VBool false))
    by (by vm_compute).
  split; [assumption|].
  exact (resolve_keeps_keywords Plugin.all_but_threads "threads" (VBool false) H).
Defined.

(** The dictionary handed to the configuration is never empty. *)
Theorem resolve_never_empty (marker : Plugin.Marker) :
  Plugin.resolve_marker_args marker <> ∅.
Proof.
  unfold Plugin.resolve_marker_args. cbv zeta. case_bool_decide; [|done].
  apply insert_non_empty.
Qed.

(** Positional arguments other than the four flags are dropped without an
    error: a marker with only such arguments resolves like the bare marker,
    with all three detectors. *)
Theorem unrecognised_flags_are_ignored (marker : Plugin.Marker) :
  Plugin.kwargs marker = ∅ ->
  Forall (fun arg => eq_str arg "tasks" = false /\ eq_str arg "threads" = false
                     /\ eq_str arg "blocking" = false /\ eq_str arg "all" = false)
         (Plugin.args marker) ->
  Plugin.resolve_marker_args marker = Plugin.resolve_marker_args Plugin.bare.
Proof.
  intros Hkw Hargs. unfold Plugin.resolve_marker_args. rewrite Hkw.
  assert (Hfold : foldl Plugin.flag_step ∅ (Plugin.args marker) = ∅).
  { generalize (∅ : gmap string pyval) as m.
    induction Hargs as [|arg l (H1 & H2 & H3 & H4) _ IH]; intros m; simpl; [done|].
    unfold Plugin.flag_step at 2. rewrite H1, H2, H3, H4. apply IH. }
  rewrite Hfold. reflexivity.
Qed.

Lemma unrecognised_flags_are_ignored_witness :
  Plugin.kwargs Plugin.misspelt = ∅
  /\ Forall (fun arg => eq_str arg "tasks" = false /\ eq_str arg "threads" = false
                        /\ eq_str arg "blocking" = false /\ eq_str arg "all" = false)
            (Plugin.args Plugin.misspelt)
  /\ Plugin.resolve_marker_args Plugin.misspelt
     = Plugin.resolve_marker_args Plugin.bare.
Proof.
  assert (H1 : Plugin.kwargs Plugin.misspelt = ∅) by reflexivity.
  assert (H2 : Forall (fun arg => eq_str arg "tasks" = false
                                  /\ eq_str arg "threads" = false
                                  /\ eq_str arg "blocking" = false
                                  /\ eq_str arg "all" = false)
                      (Plugin.args Plugin.misspelt))
    by (repeat constructor).
  split; [assumption|]. split; [assumption|].
  exact (unrecognised_flags_are_ignored Plugin.misspelt H1 H2).
Defined.

(** ** The combined detector: entry *)

Section CombinedEntry.

Import Config Combined.

Variable env : Env.

Ltac step :=
  unfold async_with, sync_with, with_exit, aenter, aexit, enter, exit,
    try_except, detector_enter, detector_exit, mbind, M_bind, bind, mret,
    M_ret, ret, raise, body_outcome in *;
  simpl in *.

(** Entering adds entry calls only: no exit method runs during
    [__aenter__]. *)
Lemma aenter_only_enters self tr :
  exited (snd (aenter env self tr)) = exited tr.
Proof.
  destruct (is_async self) eqn:Ea;
    destruct (truthy (detect_tasks (config self))) eqn:Et;
    destruct (truthy (detect_blocking (config self))) eqn:Eb;
    destruct (truthy (detect_threads (config self))) eqn:Eh;
    step; rewrite ?Ea, ?Et, ?Eb, ?Eh; simpl;
    repeat (match goal with
            | |- context [enter_outcome env ?k] => destruct (enter_outcome env k)
            end; simpl; rewrite ?Ea, ?Et, ?Eb, ?Eh; simpl);
    rewrite ?exited_app; simpl; rewrite ?app_nil_r; reflexivity.
Qed.

(** When [is_async] is false, [__aenter__] does exactly what [__enter__]
    does: the task and the blocking detector are skipped whatever the
    configuration says. *)
Theorem aenter_without_async_is_enter self tr :
  is_async self = false ->
  aenter env self tr = enter env self tr.
Proof.
  intros Ha. step. repeat (rewrite Ha; simpl).
  destruct (truthy (detect_threads (config self))); simpl; [|reflexivity].
  destruct (enter_outcome env ThreadDetector); reflexivity.
Qed.

(** With all three detectors switched off the scope does nothing: no
    detector is called and the scope ends as its body does, async or sync. *)
Theorem disabled_scope_is_transparent cfg async body tr :
  truthy (detect_tasks cfg) = false ->
  truthy (detect_blocking cfg) = false ->
  truthy (detect_threads cfg) = false ->
  async_with env (new cfg async) body tr = (body_outcome body, tr)
  /\ sync_with env (new cfg async) body tr = (body_outcome body, tr).
Proof.
  intros Ht Hb Hh. step. unfold new.
  repeat (first [rewrite Ht | rewrite Hb | rewrite Hh | rewrite andb_false_r
                | progress simpl]).
  by destruct body.
Qed.

(** When an entry method raises, that error leaves the scope and no exit
    method is called: the detectors entered before the failure stay
    entered. *)
Theorem aenter_failure_skips_exit self body tr e :
  fst (aenter env self tr) = Raise e ->
  fst (async_with env self body tr) = Propagated e None
  /\ exited (snd (async_with env self body tr)) = exited tr
  /\ snd (async_with env self body tr) = snd (aenter env self tr).
Proof.
  intros Hfail. pose proof (aenter_only_enters self tr) as Hex.
  unfold async_with. destruct (aenter env self tr) as [[self'|e'] tr'];
    simpl in *; [discriminate|].
  by injection Hfail as ->.
Qed.

(** What [__aenter__] leaves in the detector: each enabled detector, built
    from the fields of the configuration, and nothing for a disabled one. *)
Theorem aenter_passes_configuration cfg async tr self' tr' :
  aenter env (new cfg async) tr = (Ok self', tr') ->
  config self' = cfg
  /\ is_async self' = async
  /\ task_detector self'
     = (if async && truthy (detect_tasks cfg)
        then Some {| td_action := task_action cfg;
                     td_name_filter := task_name_filter cfg;
                     td_enable_creation_tracking :=
                       enable_task_creation_tracking cfg |}
        else None)
  /\ blocking_detector self'
     = (if async && truthy (detect_blocking cfg)
        then Some {| bd_action := blocking_action cfg;
                     bd_threshold := blocking_threshold cfg;
                     bd_check_interval := blocking_check_interval cfg |}
        else None)
  /\ thread_detector self'
     = (if truthy (detect_threads cfg)
        then Some {| hd_action := thread_action cfg;
                     hd_name_filter := thread_name_filter cfg;
                     hd_exclude_daemon := exclude_daemon_threads cfg |}
        else None).
Proof.
  destruct async; destruct (truthy (detect_tasks cfg)) eqn:Et;
    destruct (truthy (detect_blocking cfg)) eqn:Eb;
    destruct (truthy (detect_threads cfg)) eqn:Eh;
    step; unfold new; simpl; rewrite ?Et, ?Eb, ?Eh; simpl;
    repeat (match goal with
            | |- context [enter_outcome env ?k] => destruct (enter_outcome env k)
            end; simpl; rewrite ?Et, ?Eb, ?Eh; simpl);
    intros Hrun; inversion Hrun; subst; simpl; repeat split; reflexivity.
Qed.

End CombinedEntry.

(** ** The combined detector: exit *)

Section CombinedExit.

Import Config Combined.

Variable env : Env.

Ltac step :=
  unfold async_with, sync_with, with_exit, aenter, aexit, enter, exit,
    try_except, detector_enter, detector_exit, mbind, M_bind, bind, mret,
    M_ret, ret, raise, body_outcome in *;
  simpl in *.

(** An error of the thread detector's exit that is not a [ThreadLeakError]
    ends [__aexit__] at once: it is raised as it is, and the blocking and the
    task detector are never exited. *)
Theorem aexit_thread_fault_stops_teardown self exc tr d e :
  thread_detector self = Some d ->
  exit_outcome env ThreadDetector exc = Some e ->
  is_ThreadLeakError e = false ->
  aexit env self exc tr = (Raise e, tr ++ [Exit ThreadDetector]).
Proof.
  intros Hd He Hne. step. rewrite Hd, He. simpl. rewrite Hne. reflexivity.
Qed.

(** An error of the blocking detector's exit that is not an
    [EventLoopBlockError] is raised as it is: the leak the thread detector
    has just reported is dropped with it, and the task detector is never
    exited. *)
Theorem aexit_blocking_fault_drops_findings self exc tr dt db e1 e2 :
  thread_detector self = Some dt ->
  blocking_detector self = Some db ->
  exit_outcome env ThreadDetector exc = Some e1 ->
  is_ThreadLeakError e1 = true ->
  exit_outcome env BlockingDetector exc = Some e2 ->
  is_EventLoopBlockError e2 = false ->
  aexit env self exc tr
  = (Raise e2, tr ++ [Exit ThreadDetector; Exit BlockingDetector]).
Proof.
  intros Hdt Hdb He1 Ht1 He2 Hn2. step.
  rewrite Hdt, He1. simpl. rewrite Ht1. simpl.
  rewrite Hdb, He2. simpl. rewrite Hn2. by rewrite <- app_assoc.
Qed.

(** The same thread leak leaves a sync scope as the bare [ThreadLeakError]
    and an async scope wrapped in a [PyleakExceptionGroup]. *)
Theorem sync_exit_raises_unwrapped self exc tr d e :
  thread_detector self = Some d ->
  blocking_detector self = None ->
  task_detector self = None ->
  exit_outcome env ThreadDetector exc = Some e ->
  is_ThreadLeakError e = true ->
  fst (exit env self exc tr) = Raise e
  /\ fst (aexit env self exc tr) = Raise (PyleakExceptionGroup (group_message [e]) [e]).
Proof.
  intros Hd Hb Ht He Hty. step. rewrite Hd, Hb, Ht, He. simpl.
  rewrite Hty. simpl. done.
Qed.

End CombinedExit.

(** ** The message of the group *)

Lemma string_app_assoc (a b c : string) :
  ((a ++ b) ++ c = a ++ (b ++ c))%string.
Proof.
  induction a as [|x a IH]; [reflexivity|].
  change (String x ((a ++ b) ++ c) = String x (a ++ (b ++ c)))%string.
  by rewrite IH.
Qed.

Lemma string_app_empty_r (a : string) : (a ++ "" = a)%string.
Proof.
  induction a as [|x a IH]; [reflexivity|].
  change (String x (a ++ "") = String x a)%string. by rewrite IH.
Qed.

Lemma concat_keeps_every_part (sep s : string) (l : list string) :
  s ∈ l -> Utils.is_substring s (String.concat sep l).
Proof.
  induction l as [|x xs IH]; intros Hin.
  - by apply elem_of_nil in Hin.
  - apply elem_of_cons in Hin as [->|Hin].
    + destruct xs as [|y ys]; simpl.
      * exists "", "". simpl. by rewrite string_app_empty_r.
      * by exists "", (sep ++ String.concat sep (y :: ys))%string.
    + destruct xs as [|y ys]; [by apply elem_of_nil in Hin|].
      destruct (IH Hin) as (pre & post & Heq).
      exists (x ++ sep ++ pre)%string, post.
      change (String.concat sep (x :: y :: ys))
        with (x ++ sep ++ String.concat sep (y :: ys))%string.
      rewrite Heq. by rewrite !string_app_assoc.
Qed.

(** The message of the group raised by [__aexit__] starts with the fixed
    heading and contains the message of every error it wraps. *)
Theorem group_message_keeps_every_message (errs : list exn) (e : exn) :
  e ∈ errs ->
  Utils.is_prefix "PyLeak detected issues:" (Combined.group_message errs)
  /\ Utils.is_substring (exn_str e) (Combined.group_message errs).
Proof.
  intros Hin. unfold Combined.group_message. split.
  - by eexists.
  - destruct (concat_keeps_every_part (Combined.nl ++ Combined.nl)%string
                (exn_str e) (map exn_str errs)) as (pre & post & Heq).
    { apply list_elem_of_fmap. by exists e. }
    exists ("PyLeak detected issues:" ++ Combined.nl ++ pre)%string, post.
    rewrite Heq. by rewrite !string_app_assoc.
Qed.

Lemma group_message_keeps_every_message_witness :
  Combined.user_error ∈ [ThreadLeakError "Detected 1 leaked threads"; Combined.user_error]
  /\ Utils.is_prefix "PyLeak detected issues:"
       (Combined.group_message
          [ThreadLeakError "Detected 1 leaked threads"; Combined.user_error])
  /\ Utils.is_substring (exn_str Combined.user_error)
       (Combined.group_message
          [ThreadLeakError "Detected 1 leaked threads"; Combined.user_error]).
Proof.
  assert (H : Combined.user_error
              ∈ [ThreadLeakError "Detected 1 leaked threads"; Combined.user_error])
    by (repeat constructor).
  split; [assumption|].
  exact (group_message_keeps_every_message _ _ H).
Defined.

(** ** The combined detector on further concrete runs *)

Section CombinedFurtherRuns.

Import Config Combined.

Lemma aenter_without_async_is_enter_witness :
  is_async (new (init ∅) false) = false
  /\ aenter two_leaks_env (new (init ∅) false) []
     = enter two_leaks_env (new (init ∅) false) [].
Proof.
  assert (H : is_async (new (init ∅) false) = false) by reflexivity.
  split; [assumption|].
  exact (aenter_without_async_is_enter two_leaks_env (new (init ∅) false) [] H).
Defined.

Lemma disabled_scope_is_transparent_witness :
  truthy (detect_tasks (init (Plugin.resolve_marker_args Plugin.all_off))) = false
  /\ truthy (detect_blocking (init (Plugin.resolve_marker_args Plugin.all_off))) = false
  /\ truthy (detect_threads (init (Plugin.resolve_marker_args Plugin.all_off))) = false
  /\ async_with two_leaks_env
       (new (init (Plugin.resolve_marker_args Plugin.all_off)) true)
       (Some user_error) []
     = (body_outcome (Some user_error), [])
  /\ sync_with two_leaks_env
       (new (init (Plugin.resolve_marker_args Plugin.all_off)) true)
       (Some user_error) []
     = (body_outcome (Some user_error), []).
Proof.
  assert (H1 : truthy (detect_tasks (init (Plugin.resolve_marker_args Plugin.all_off)))
               = false) by (by vm_compute).
  assert (H2 : truthy (detect_blocking (init (Plugin.resolve_marker_args Plugin.all_off)))
               = false) by (by vm_compute).
  assert (H3 : truthy (detect_threads (init (Plugin.resolve_marker_args Plugin.all_off)))
               = false) by (by vm_compute).
  repeat (split; [assumption|]).
  exact (disabled_scope_is_transparent two_leaks_env _ true (Some user_error) []
           H1 H2 H3).
Defined.

Lemma aenter_failure_skips_exit_witness :
  fst (aenter blocking_enter_fails_env (new (init ∅) true) [])
  = Raise (OtherError "RuntimeError" "no running event loop")
  /\ fst (async_with blocking_enter_fails_env (new (init ∅) true) None [])
     = Propagated (OtherError "RuntimeError" "no running event loop") None
  /\ exited (snd (async_with blocking_enter_fails_env (new (init ∅) true) None []))
     = exited []
  /\ snd (async_with blocking_enter_fails_env (new (init ∅) true) None [])
     = snd (aenter blocking_enter_fails_env (new (init ∅) true) []).
Proof.
  assert (H : fst (aenter blocking_enter_fails_env (new (init ∅) true) [])
              = Raise (OtherError "RuntimeError" "no running event loop"))
    by (by vm_compute).
  split; [assumption|].
  exact (aenter_failure_skips_exit blocking_enter_fails_env (new (init ∅) true)
           None [] _ H).
Defined.

(** In that run the task detector was entered and is left running. *)
Lemma aenter_failure_leaves_task_detector :
  snd (async_with blocking_enter_fails_env (new (init ∅) true) None [])
  = [Enter TaskDetector; Enter BlockingDetector].
Proof. by vm_compute. Qed.

Lemma aenter_passes_configuration_witness :
  aenter quiet_env (new (init (Plugin.resolve_marker_args Plugin.all_but_threads)) true) []
  = (Ok all_but_threads_started, [Enter TaskDetector; Enter BlockingDetector])
  /\ blocking_detector all_but_threads_started
     = Some {| bd_action := VStr "raise"; bd_threshold := VFloat (5 # 100);
               bd_check_interval := VFloat (1 # 100) |}
  /\ thread_detector all_but_threads_started = None.
Proof.
  assert (H : aenter quiet_env
                (new (init (Plugin.resolve_marker_args Plugin.all_but_threads)) true) []
              = (Ok all_but_threads_started,
                 [Enter TaskDetector; Enter BlockingDetector]))
    by (by vm_compute).
  split; [assumption|].
  destruct (aenter_passes_configuration quiet_env _ true [] _ _ H)
    as (_ & _ & _ & Hb & Hh).
  split; [rewrite Hb; by vm_compute|rewrite Hh; by vm_compute].
Defined.

Lemma aexit_thread_fault_stops_teardown_witness :
  thread_detector all_started
  = Some {| hd_action := VStr "raise"; hd_name_filter := VNone;
            hd_exclude_daemon := VBool true |}
  /\ exit_outcome faulty_thread_env ThreadDetector None
     = Some (OtherError "RuntimeError" "cannot enumerate threads")
  /\ is_ThreadLeakError (OtherError "RuntimeError" "cannot enumerate threads") = false
  /\ aexit faulty_thread_env all_started None []
     = (Raise (OtherError "RuntimeError" "cannot enumerate threads"),
        [] ++ [Exit ThreadDetector]).
Proof.
  repeat (split; [reflexivity|]).
  exact (aexit_thread_fault_stops_teardown faulty_thread_env all_started None [] _ _
           eq_refl eq_refl eq_refl).
Defined.

Lemma aexit_blocking_fault_drops_findings_witness :
  exit_outcome blocking_fault_env ThreadDetector None
  = Some (ThreadLeakError "Detected 1 leaked threads")
  /\ exit_outcome blocking_fault_env BlockingDetector None
     = Some (OtherError "RuntimeError" "no running event loop")
  /\ aexit blocking_fault_env all_started None []
     = (Raise (OtherError "RuntimeError" "no running event loop"),
        [] ++ [Exit ThreadDetector; Exit BlockingDetector]).
Proof.
  repeat (split; [reflexivity|]).
  exact (aexit_blocking_fault_drops_findings blocking_fault_env all_started None []
           _ _ _ _ eq_refl eq_refl eq_refl eq_refl eq_refl eq_refl).
Defined.

Lemma sync_exit_raises_unwrapped_witness :
  exit_outcome two_leaks_env ThreadDetector None
  = Some (ThreadLeakError "Detected 1 leaked threads")
  /\ fst (exit two_leaks_env thread_only None [])
     = Raise (ThreadLeakError "Detected 1 leaked threads")
  /\ fst (aexit two_leaks_env thread_only None [])
     = Raise (PyleakExceptionGroup
                (group_message [ThreadLeakError "Detected 1 leaked threads"])
                [ThreadLeakError "Detected 1 leaked threads"]).
Proof.
  split; [reflexivity|].
  exact (sync_exit_raises_unwrapped two_leaks_env thread_only None [] _ _
           eq_refl eq_refl eq_refl eq_refl eq_refl).
Defined.

End CombinedFurtherRuns.

(** ** The caller context: bounds and invariants *)

Section UtilsFurther.

Import Utils.

Lemma py_index_out_of_range {A} (l : list A) (i : Z) :
  ~ (- Z.of_nat (length l) <= i < Z.of_nat (length l))%Z ->
  py_index l i = Raise (IndexError "list index out of range").
Proof.
  intros Hout. unfold py_index.
  destruct (Z.ltb_spec i 0);
    [destruct (Z.leb_spec 0 (i + Z.of_nat (length l)))
    |destruct (Z.leb_spec 0 i)]; simpl; try reflexivity;
    match goal with
    | |- context [(?a <? ?b)%Z] => destruct (Z.ltb_spec a b); [lia|reflexivity]
    end.
Qed.

(** The slice kept by [find_my_caller] is a part of the stack, whatever
    [stop] is. *)
Lemma py_slice_to_subseteq {A} (l : list A) (stop : Z) : py_slice_to l stop ⊆ l.
Proof. unfold py_slice_to. apply subseteq_take. Qed.

(** A file is rejected as user code exactly when it lies under
    site-packages, in the standard library, or in pyleak's own directory. *)
Theorem is_user_file_false_iff src_dir f :
  _is_user_file src_dir f = false
  <-> is_substring "site-packages" f \/ is_substring "lib/python" f
      \/ is_prefix src_dir f.
Proof.
  unfold _is_user_file.
  rewrite <- !contains_spec, <- startswith_spec.
  destruct (contains "site-packages" f), (contains "lib/python" f),
    (startswith f src_dir); simpl; intuition congruence.
Qed.

(** With a stack no deeper than [ignore_frames], [find_my_caller] raises
    [IndexError]: in particular on an empty stack. *)
Theorem find_my_caller_short_stack src_dir (stack : list FrameSummary)
    (ignore_frames : Z) :
  (Z.of_nat (length stack) <= ignore_frames)%Z ->
  find_my_caller src_dir stack ignore_frames
  = Raise (IndexError "list index out of range").
Proof.
  intros Hshort. unfold find_my_caller.
  rewrite py_index_out_of_range by lia. reflexivity.
Qed.

Lemma find_my_caller_short_stack_witness :
  (Z.of_nat (length sample_stack) <= 4)%Z
  /\ find_my_caller "/opt/pyleak" sample_stack 4
     = Raise (IndexError "list index out of range").
Proof.
  assert (H : (Z.of_nat (length sample_stack) <= 4)%Z) by (simpl; lia).
  split; [assumption|].
  exact (find_my_caller_short_stack "/opt/pyleak" sample_stack 4 H).
Defined.

(** The call site reported is the frame [ignore_frames] below the innermost
    one: position [length - 1 - ignore_frames] counted from the outermost
    frame, with its file, function and line. *)
Theorem find_my_caller_frame src_dir (stack : list FrameSummary) (ignore_frames : Z) :
  (0 <= ignore_frames < Z.of_nat (length stack))%Z ->
  exists ctx frame,
    find_my_caller src_dir stack ignore_frames = Ok ctx
    /\ stack !! (length stack - 1 - Z.to_nat ignore_frames)%nat = Some frame
    /\ cc_filename ctx = filename frame
    /\ cc_name ctx = name frame
    /\ cc_lineno ctx = lineno frame.
Proof.
  intros Hk. unfold find_my_caller.
  destruct (py_index_neg stack (ignore_frames + 1)) as (frame & Hidx & Hlook); [lia|].
  replace (- ignore_frames - 1)%Z with (- (ignore_frames + 1))%Z by lia.
  rewrite Hidx. simpl. eexists _, frame. split; [reflexivity|].
  split; [|done].
  replace (length stack - 1 - Z.to_nat ignore_frames)%nat
    with (Z.to_nat (Z.of_nat (length stack) - (ignore_frames + 1))) by lia.
  exact Hlook.
Qed.

Lemma find_my_caller_frame_witness :
  (0 <= 2 < Z.of_nat (length sample_stack))%Z
  /\ exists ctx frame,
       find_my_caller "/opt/pyleak" sample_stack 2 = Ok ctx
       /\ sample_stack !! (length sample_stack - 1 - Z.to_nat 2)%nat = Some frame
       /\ cc_filename ctx = filename frame
       /\ cc_name ctx = name frame
       /\ cc_lineno ctx = lineno frame.
Proof.
  assert (H : (0 <= 2 < Z.of_nat (length sample_stack))%Z) by (simpl; lia).
  split; [assumption|].
  exact (find_my_caller_frame "/opt/pyleak" sample_stack 2 H).
Defined.

(** With [ignore_frames = 0] on a non-empty stack the call site is the
    innermost frame and the set of files is empty: the slice [stack[:-0]]
    keeps nothing. *)
Theorem find_my_caller_zero_has_no_files src_dir (stack : list FrameSummary) :
  stack <> [] ->
  exists ctx frame,
    find_my_caller src_dir stack 0 = Ok ctx
    /\ last stack = Some frame
    /\ cc_filename ctx = filename frame
    /\ files ctx = Some ∅.
Proof.
  intros Hne.
  assert (Hlen : (0 < Z.of_nat (length stack))%Z)
    by (destruct stack; [done|simpl; lia]).
  unfold find_my_caller.
  destruct (py_index_neg stack 1) as (frame & Hidx & Hlook); [lia|].
  replace (- 0 - 1)%Z with (Z.opp 1) by lia. rewrite Hidx. simpl.
  eexists _, frame. split; [reflexivity|]. split.
  - rewrite last_lookup.
    replace (pred (length stack)) with (Z.to_nat (Z.of_nat (length stack) - 1)) by lia.
    exact Hlook.
  - split; [reflexivity|]. simpl. by rewrite py_slice_to_zero.
Qed.

Lemma find_my_caller_zero_has_no_files_witness :
  sample_stack <> []
  /\ exists ctx frame,
       find_my_caller "/opt/pyleak" sample_stack 0 = Ok ctx
       /\ last sample_stack = Some frame
       /\ cc_filename ctx = filename frame
       /\ files ctx = Some ∅.
Proof.
  assert (H : sample_stack <> []) by discriminate.
  split; [assumption|].
  exact (find_my_caller_zero_has_no_files "/opt/pyleak" sample_stack H).
Defined.

(** Whatever [ignore_frames] is, every file of the context is the file of a
    frame of the stack and passes [_is_user_file]: the context never names a
    file that was not on the stack, nor one of pyleak or of a library. *)
Theorem find_my_caller_files_sound src_dir (stack : list FrameSummary)
    (ignore_frames : Z) ctx :
  find_my_caller src_dir stack ignore_frames = Ok ctx ->
  exists fs,
    files ctx = Some fs
    /\ fs ⊆ stack_files stack
    /\ forall f : string, f ∈ fs -> _is_user_file src_dir f = true.
Proof.
  unfold find_my_caller.
  destruct (py_index stack (- ignore_frames - 1)) as [frame|e]; simpl; [|done].
  intros [= <-]. simpl. eexists. split; [reflexivity|]. split.
  - intros f. unfold stack_files. rewrite !elem_of_list_to_set, !list_elem_of_fmap.
    intros (fr & -> & Hin). exists fr. split; [done|].
    apply list_elem_of_filter in Hin as [_ Hin].
    by apply (py_slice_to_subseteq stack (- ignore_frames)).
  - intros f. rewrite elem_of_list_to_set, list_elem_of_fmap.
    intros (fr & -> & Hin). by apply list_elem_of_filter in Hin as [Hu _].
Qed.

Lemma find_my_caller_files_sound_witness :
  exists ctx,
    find_my_caller "/opt/pyleak" sample_stack (-2) = Ok ctx
    /\ exists fs,
         files ctx = Some fs
         /\ fs ⊆ stack_files sample_stack
         /\ forall f : string, f ∈ fs -> _is_user_file "/opt/pyleak" f = true.
Proof.
  eexists. split; [by vm_compute|].
  refine (find_my_caller_files_sound "/opt/pyleak" sample_stack (-2) _ _).
  by vm_compute.
Defined.

(** For a positive [ignore_frames], the file of the reported call site is
    itself among the files of the context whenever it is a user file. *)
Theorem caller_file_is_related src_dir (stack : list FrameSummary)
    (ignore_frames : Z) ctx :
  (0 < ignore_frames)%Z ->
  find_my_caller src_dir stack ignore_frames = Ok ctx ->
  _is_user_file src_dir (cc_filename ctx) = true ->
  exists fs, files ctx = Some fs /\ cc_filename ctx ∈ fs.
Proof.
  intros Hpos Hcall Huser.
  assert (Hlen : (ignore_frames < Z.of_nat (length stack))%Z).
  { destruct (decide (ignore_frames < Z.of_nat (length stack))%Z); [done|].
    unfold find_my_caller in Hcall.
    rewrite py_index_out_of_range in Hcall by lia. discriminate Hcall. }
  revert Hcall. unfold find_my_caller.
  destruct (py_index_neg stack (ignore_frames + 1)) as (frame & Hidx & Hlook); [lia|].
  replace (- ignore_frames - 1)%Z with (- (ignore_frames + 1))%Z by lia.
  rewrite Hidx. simpl. intros [= <-]. simpl in *.
  eexists. split; [reflexivity|].
  rewrite elem_of_list_to_set, list_elem_of_fmap. exists frame. split; [done|].
  apply list_elem_of_filter. split; [done|].
  rewrite py_slice_to_neg by lia. apply elem_of_take.
  eexists. split; [exact Hlook|lia].
Qed.

Lemma caller_file_is_related_witness :
  (0 < 2)%Z
  /\ exists ctx,
       find_my_caller "/opt/pyleak" sample_stack 2 = Ok ctx
       /\ _is_user_file "/opt/pyleak" (cc_filename ctx) = true
       /\ exists fs, files ctx = Some fs /\ cc_filename ctx ∈ fs.
Proof.
  assert (H : (0 < 2)%Z) by lia.
  split; [assumption|].
  eexists. split; [by vm_compute|]. split; [by vm_compute|].
  refine (caller_file_is_related "/opt/pyleak" sample_stack 2 _ H _ _);
    by vm_compute.
Defined.

End UtilsFurther.
